(** * The CPI-U loader: insert_tables.py and the schema of create_db.py

    A shallow embedding of the loader that fills the SQLite database of BLS
    CPI-U series: the text helpers, the data-frame steps of the fact load,
    the two loaders, the view and [update_db].  The libraries the program
    calls (urllib, pandas, sqlite3) are modelled by what the program
    observes of them; what a library decides on its own (the bytes behind a
    URL, how [read_csv] types a column, how SQLite re-types a value of the
    wrong storage class) is a field of the record [World]. *)

From Stdlib Require Import ZArith List String Ascii Bool Arith Lia.
Import ListNotations.

Open Scope string_scope.
Open Scope list_scope.

(** ** Python strings

    A [str] is a [string]; an [ascii] stands for one character, so the
    texts of the model are those whose code points lie below 256. *)

Module PyStr.

(** [str.isspace] on one character, for the code points below 256:
    TAB..CR, FS..US, SPACE, NEL and NBSP. *)
Definition isspace (c : ascii) : bool :=
  let n := nat_of_ascii c in
  (Nat.leb 9 n && Nat.leb n 13) || (Nat.leb 28 n && Nat.leb n 32)
  || Nat.eqb n 133 || Nat.eqb n 160.

Fixpoint lstrip (s : string) : string :=
  match s with
  | EmptyString => EmptyString
  | String c s' => if isspace c then lstrip s' else s
  end.

Fixpoint rstrip (s : string) : string :=
  match s with
  | EmptyString => EmptyString
  | String c s' =>
      match rstrip s' with
      | EmptyString => if isspace c then EmptyString else String c EmptyString
      | r => String c r
      end
  end.

(** [s.strip()] *)
Definition strip (s : string) : string := rstrip (lstrip s).

(** [s[:n]] for a literal [n >= 0] *)
Fixpoint take (n : nat) (s : string) : string :=
  match n, s with
  | S n', String c s' => String c (take n' s')
  | _, _ => EmptyString
  end.

(** [s[n:]] for a literal [n >= 0] *)
Fixpoint drop (n : nat) (s : string) : string :=
  match n, s with
  | S n', String _ s' => drop n' s'
  | _, _ => s
  end.

(** [s[i:j]] for literals [0 <= i <= j] *)
Definition slice (i j : nat) (s : string) : string := take (j - i) (drop i s).

(** [s.startswith(p)] *)
Fixpoint startswith (p s : string) : bool :=
  match p, s with
  | EmptyString, _ => true
  | String a p', String b s' => Ascii.eqb a b && startswith p' s'
  | String _ _, EmptyString => false
  end.

(** The scan behind [s.split(sep)] for a non-empty [sep]: [skip] counts the
    characters of a separator just matched that are still to be passed over,
    [cur] is the field read so far. *)
Fixpoint split_scan (sep s : string) (skip : nat) (cur : string) : list string :=
  match s with
  | EmptyString => [cur]
  | String c s' =>
      match skip with
      | S k => split_scan sep s' k cur
      | O =>
          if startswith sep s
          then cur :: split_scan sep s' (String.length sep - 1) EmptyString
          else split_scan sep s' 0 (cur ++ String c EmptyString)
      end
  end.

(** [s.split(sep)]; [None] is the [ValueError] of an empty separator. *)
Definition split (sep s : string) : option (list string) :=
  match sep with
  | EmptyString => None
  | _ => Some (split_scan sep s 0 EmptyString)
  end.

End PyStr.

(** ** The lambdas of [get_data_cols] *)

Definition prefix_of (x : string) : string := PyStr.slice 0 2 x.
Definition seasonal_of (x : string) : string := PyStr.slice 2 3 x.
Definition periodicity_of (x : string) : string := PyStr.slice 3 4 x.
Definition area_code_of (x : string) : string := PyStr.slice 4 8 x.
Definition item_code_of (x : string) : string := PyStr.strip (PyStr.drop 8 x).

(** Every character of [s] is whitespace. *)
Fixpoint all_space (s : string) : bool :=
  match s with
  | EmptyString => true
  | String c s' => PyStr.isspace c && all_space s'
  end.

(** [s] does not begin with whitespace. *)
Definition clean_start (s : string) : bool :=
  match s with
  | EmptyString => true
  | String c _ => negb (PyStr.isspace c)
  end.

(** [s] does not end with whitespace. *)
Fixpoint clean_end (s : string) : bool :=
  match s with
  | EmptyString => true
  | String c EmptyString => negb (PyStr.isspace c)
  | String _ s' => clean_end s'
  end.

(** [s] is one line: it holds no newline. *)
Fixpoint no_newline (s : string) : bool :=
  match s with
  | EmptyString => true
  | String c s' => negb (Ascii.eqb (ascii_of_nat 10) c) && no_newline s'
  end.

(** ** Exceptions

    The exceptions the loader can meet; all of them derive from Python's
    [Exception], so every [except Exception] below catches each of them. *)

Inductive exn : Type :=
| NameError (name : string)
| KeyError (key : string)
| AttributeError
| TypeError
| ValueError
| IndexError
| URLError             (* urllib: the request failed *)
| UnicodeDecodeError   (* the body is not UTF-8 *)
| ParserError          (* pandas: read_csv gave up on the text *)
| OperationalError     (* sqlite3: unknown table or column, wrong value count *)
| ProgrammingError     (* sqlite3: wrong number of bindings for a row *)
| IntegrityError.      (* sqlite3: constraint failed, datatype mismatch *)

Inductive result (A : Type) : Type :=
| Ok (a : A)
| Raise (e : exn).

Arguments Ok {A} a.
Arguments Raise {A} e.

Definition rbind {A B : Type} (r : result A) (k : A -> result B) : result B :=
  match r with
  | Ok a => k a
  | Raise e => Raise e
  end.

Declare Scope result_scope.
Delimit Scope result_scope with result.
Notation "'let?' x ':=' r 'in' k" := (rbind r (fun x => k))
  (at level 10, x name, r at level 100, k at level 200) : result_scope.

(** ** Data frames

    A cell holds what pandas keeps in a column after [read_csv]: a missing
    value, an integer, a float (its IEEE-754 bit pattern; the loader does no
    arithmetic on floats) or a string. *)

Inductive cell : Type :=
| CNaN
| CInt (z : Z)
| CFloat (bits : Z)
| CStr (s : string).

(** The row labels: the default [RangeIndex(0, n)], integer labels, or
    labels that are strings. *)
Inductive Index : Type :=
| RangeIndex (n : nat)
| Int64Index (labels : list Z)
| ObjectIndex (labels : list string).

Record DataFrame : Type := mkFrame {
  index : Index;
  columns : list (string * list cell)
}.

Definition index_len (ix : Index) : nat :=
  match ix with
  | RangeIndex n => n
  | Int64Index l => List.length l
  | ObjectIndex l => List.length l
  end.

Definition nrows (df : DataFrame) : nat := index_len (index df).

Definition column_names (df : DataFrame) : list string := map fst (columns df).

(** Two's-complement wrap-around of numpy's int64 arithmetic. *)
Definition wrap64 (z : Z) : Z :=
  ((z + 2 ^ 63) mod 2 ^ 64 - 2 ^ 63)%Z.

(** [data.index + 1]: a range index stays a range (Python integers), integer
    labels are added as int64, a string label has no [+ 1]. *)
Definition index_add1 (ix : Index) : result (list cell) :=
  match ix with
  | RangeIndex n => Ok (map (fun i => CInt (Z.of_nat i + 1)) (seq 0 n))
  | Int64Index l => Ok (map (fun z => CInt (wrap64 (z + 1))) l)
  | ObjectIndex [] => Ok []
  | ObjectIndex (_ :: _) => Raise TypeError
  end.

Definition named (name : string) (kv : string * list cell) : bool :=
  String.eqb (fst kv) name.

Definition has_col (name : string) (cols : list (string * list cell)) : bool :=
  existsb (named name) cols.

Definition replace_col (name : string) (vals : list cell)
    (cols : list (string * list cell)) : list (string * list cell) :=
  map (fun kv => if named name kv then (fst kv, vals) else kv) cols.

(** [data[name] = vals]: every column of that name is overwritten in place;
    a new name is added as the last column. *)
Definition setitem (df : DataFrame) (name : string) (vals : list cell) : DataFrame :=
  mkFrame (index df)
    (if has_col name (columns df)
     then replace_col name vals (columns df)
     else columns df ++ [(name, vals)]).

(** [series.apply(f)] for one of the slicing lambdas: slicing works on a
    string only; on a float (a missing cell) or an integer it is a
    [TypeError]. *)
Fixpoint series_apply (f : string -> string) (col : list cell) : result (list cell) :=
  match col with
  | [] => Ok []
  | CStr s :: rest =>
      match series_apply f rest with
      | Ok rest' => Ok (CStr (f s) :: rest')
      | Raise e => Raise e
      end
  | _ :: _ => Raise TypeError
  end.

(** [data[target] = data[source].apply(f)].  With no column [source] the
    lookup is a [KeyError]; with several, pandas hands back a frame, and
    assigning its [apply] to one column is a [ValueError]. *)
Definition assign_apply (df : DataFrame) (target source : string)
    (f : string -> string) : result DataFrame :=
  match filter (named source) (columns df) with
  | [] => Raise (KeyError source)
  | [(_, col)] =>
      match series_apply f col with
      | Ok vals => Ok (setitem df target vals)
      | Raise e => Raise e
      end
  | _ :: _ :: _ => Raise ValueError
  end.

(** [get_data_cols(data)].  [None] is what [text_to_df] returned on a parse
    failure: reading [data.index] of it is an [AttributeError]. *)
Definition get_data_cols (data : option DataFrame) : result DataFrame :=
  match data with
  | None => Raise AttributeError
  | Some data =>
      (let? ids := index_add1 (index data) in
       let data := setitem data "id" ids in
       let? data := assign_apply data "prefix" "series_id" prefix_of in
       let? data := assign_apply data "seasonal" "series_id" seasonal_of in
       let? data := assign_apply data "periodicity" "series_id" periodicity_of in
       let? data := assign_apply data "area_code" "series_id" area_code_of in
       let? data := assign_apply data "item_code" "series_id" item_code_of in
       Ok data)%result
  end.

(** [data[cols]] for a list of names: the columns of each name, in the order
    of [cols]; a name that is no column is a [KeyError]. *)
Fixpoint select_cols (all : list (string * list cell)) (cols : list string)
    : result (list (string * list cell)) :=
  match cols with
  | [] => Ok []
  | c :: rest =>
      match filter (named c) all with
      | [] => Raise (KeyError c)
      | found =>
          match select_cols all rest with
          | Ok more => Ok (found ++ more)
          | Raise e => Raise e
          end
      end
  end.

Definition arrange_data_cols (data : DataFrame) (cols : list string) : result DataFrame :=
  (let? selected := select_cols (columns data) cols in
   Ok (mkFrame (index data) selected))%result.

(** [df.rename(columns=lambda x: x.strip())] *)
Definition rename_strip (df : DataFrame) : DataFrame :=
  mkFrame (index df) (map (fun kv => (PyStr.strip (fst kv), snd kv)) (columns df)).

(** The cell of column [name] in row [i]: the first column of that name. *)
Definition cell_at (df : DataFrame) (name : string) (i : nat) : option cell :=
  match find (named name) (columns df) with
  | Some (_, col) => nth_error col i
  | None => None
  end.

(** The frame [get_data_cols] builds from [df] when the new ids are [ids]
    and the series ids are the strings [ss]. *)
Definition decomposed (df : DataFrame) (ids : list cell) (ss : list string) : DataFrame :=
  let with_col (d : DataFrame) (name : string) (f : string -> string) :=
    setitem d name (map (fun s => CStr (f s)) ss) in
  with_col
    (with_col
       (with_col
          (with_col
             (with_col (setitem df "id" ids) "prefix" prefix_of)
             "seasonal" seasonal_of)
          "periodicity" periodicity_of)
       "area_code" area_code_of)
    "item_code" item_code_of.

(** The frame [data[cols]] when every name of [cols] is a column. *)
Definition arranged (data : DataFrame) (cols : list string) : DataFrame :=
  mkFrame (index data) (flat_map (fun c => filter (named c) (columns data)) cols).

(** The ids [data.index + 1] of a range index. *)
Definition range_ids (n : nat) : list cell :=
  map (fun i => CInt (Z.of_nat i + 1)) (seq 0 n).



(** ** The SQLite store

    Values by storage class, the column affinities of the schema and the
    conflict clauses it uses. *)

Inductive value : Type :=
| VNull
| VInt (z : Z)
| VReal (bits : Z)
| VText (s : string).

Definition row : Type := list value.

Inductive affinity : Type := INTEGER | TEXT | REAL.

Inductive conflict : Type := ABORT | IGNORE.

(** A table of the schema.  In all four tables the first column is declared
    [NOT NULL PRIMARY KEY]; [t_rowid] says that it is an [INTEGER PRIMARY
    KEY] (an alias of the rowid), [t_pk_conflict] is the [ON CONFLICT]
    clause of the key, [t_unique] the [UNIQUE(...)] table constraints as
    column positions.  The [FOREIGN KEY] clauses are not listed: sqlite3
    connections leave foreign-key enforcement off. *)
Record table_def : Type := mkTable {
  t_columns : list (string * affinity);
  t_rowid : bool;
  t_pk_conflict : conflict;
  t_unique : list (list nat)
}.

(** The [CREATE TABLE] statements of [create_db.main]. *)
Definition create_data_query : table_def :=
  mkTable
    [("id", INTEGER); ("series_id", TEXT); ("prefix", TEXT); ("seasonal", TEXT);
     ("periodicity", TEXT); ("area_code", TEXT); ("item_code", TEXT);
     ("year", INTEGER); ("period", TEXT); ("value", REAL);
     ("footnote_codes", TEXT)]
    true IGNORE [[1; 7; 8]]%nat.

Definition create_periods_query : table_def :=
  mkTable [("period", TEXT); ("period_abbr", TEXT); ("period_name", TEXT)]
    false ABORT [].

Definition create_items_query : table_def :=
  mkTable
    [("item_code", TEXT); ("item_name", TEXT); ("display_level", INTEGER);
     ("selectable", TEXT); ("sort_sequence", INTEGER)]
    false ABORT [].

Definition create_areas_query : table_def :=
  mkTable
    [("area_code", TEXT); ("area_name", TEXT); ("display_level", INTEGER);
     ("selectable", TEXT); ("sort_sequence", INTEGER)]
    false ABORT [].

Inductive table : Type := Areas | Items | Periods | Data.

Definition def_of (t : table) : table_def :=
  match t with
  | Areas => create_areas_query
  | Items => create_items_query
  | Periods => create_periods_query
  | Data => create_data_query
  end.

Definition arity (t : table) : nat := List.length (t_columns (def_of t)).

(** SQLite compares identifiers without regard to ASCII case. *)
Definition lower_char (c : ascii) : ascii :=
  let n := nat_of_ascii c in
  if Nat.leb 65 n && Nat.leb n 90 then ascii_of_nat (n + 32) else c.

Fixpoint lower (s : string) : string :=
  match s with
  | EmptyString => EmptyString
  | String c s' => String (lower_char c) (lower s')
  end.

Definition ident_eqb (a b : string) : bool := String.eqb (lower a) (lower b).

(** The table a name denotes.  The name is taken as a plain identifier, as
    [update_db] writes it. *)
Definition table_of_name (name : string) : option table :=
  if ident_eqb name "areas" then Some Areas
  else if ident_eqb name "items" then Some Items
  else if ident_eqb name "periods" then Some Periods
  else if ident_eqb name "data" then Some Data
  else None.

(** The database after [create_db.main]: the rows of the four tables, in
    insertion order, and whether [data_view] is defined. *)
Record database : Type := mkDb {
  areas : list row;
  items : list row;
  periods : list row;
  data : list row;
  data_view : bool
}.

Definition empty_db : database := mkDb [] [] [] [] false.

Definition rows_of (d : database) (t : table) : list row :=
  match t with
  | Areas => areas d
  | Items => items d
  | Periods => periods d
  | Data => data d
  end.

Definition with_rows (d : database) (t : table) (rs : list row) : database :=
  match t with
  | Areas => mkDb rs (items d) (periods d) (data d) (data_view d)
  | Items => mkDb (areas d) rs (periods d) (data d) (data_view d)
  | Periods => mkDb (areas d) (items d) rs (data d) (data_view d)
  | Data => mkDb (areas d) (items d) (periods d) rs (data_view d)
  end.

Definition value_eqb (a b : value) : bool :=
  match a, b with
  | VNull, VNull => true
  | VInt x, VInt y => Z.eqb x y
  | VReal x, VReal y => Z.eqb x y
  | VText x, VText y => String.eqb x y
  | _, _ => false
  end.

Definition is_null (v : value) : bool :=
  match v with
  | VNull => true
  | _ => false
  end.

(** SQL [a = b] as a join or key condition: true only for two equal values
    that are not NULL. *)
Definition sql_eq (a b : value) : bool := negb (is_null a) && value_eqb a b.

Definition col (i : nat) (r : row) : value := nth i r VNull.

(** How sqlite3 binds a Python value; pandas hands a missing cell over as
    [None]. *)
Definition bind_cell (c : cell) : value :=
  match c with
  | CNaN => VNull
  | CInt z => VInt z
  | CFloat bits => VReal bits
  | CStr s => VText s
  end.

(** ** The world outside the program *)

Record World : Type := mkWorld {
  (** [urlopen(url).read().decode('utf-8')]: the text, or the exception *)
  urlopen : string -> result string;
  (** [pd.read_csv(StringIO(text), sep=separator)] *)
  read_csv : string -> string -> result DataFrame;
  (** SQLite's re-typing of a value whose storage class differs from the
      affinity of its column (numeric text, a number for a TEXT column) *)
  convert : affinity -> value -> value;
  (** [sqlite3.connect(db_file)]: the database kept in that file, [None] for
      an [sqlite3.Error] *)
  connect : string -> option database
}.

(** What the program prints and which URLs it asks for. *)
Inductive message : Type :=
| MError (e : exn)                (* f'Error: {e}' *)
| MOpened                         (* 'Opened database successfully' *)
| MConnectFailed                  (* print(e) in create_sqlite_connection *)
| MInserted (n : nat)             (* f"Inserted {cursor.rowcount} records to the table." *)
| MUnableDim                      (* "Unable to read the text file from URL." *)
| MUnableData                     (* "Unable to read text file from URL." *)
| MCreatedView (n : nat).         (* f"Created view with {rows} records." *)

Inductive event : Type :=
| Fetch (url : string)
| Printed (m : message).

(** ** Programs: state and exceptions

    The state is the database behind the connection and the output so far;
    a program returns a value or raises. *)

Record state : Type := mkState {
  db : database;
  out : list event
}.

Definition M (A : Type) : Type := state -> result A * state.

Definition ret {A : Type} (a : A) : M A := fun st => (Ok a, st).

Definition raise {A : Type} (e : exn) : M A := fun st => (Raise e, st).

Definition bind {A B : Type} (m : M A) (k : A -> M B) : M B :=
  fun st =>
    match m st with
    | (Ok a, st') => k a st'
    | (Raise e, st') => (Raise e, st')
    end.

Definition lift {A : Type} (r : result A) : M A := fun st => (r, st).

Declare Scope prog_scope.
Delimit Scope prog_scope with prog.
Notation "x <- m ;; k" := (bind m (fun x => k))
  (at level 61, m at next level, right associativity) : prog_scope.
Notation "m ;; k" := (bind m (fun _ => k))
  (at level 61, right associativity) : prog_scope.

Definition emit (e : event) : M unit :=
  fun st => (Ok tt, mkState (db st) (out st ++ [e])).

Definition print (m : message) : M unit := emit (Printed m).

Definition get_rows (t : table) : M (list row) :=
  fun st => (Ok (rows_of (db st) t), st).

Definition put_rows (t : table) (rs : list row) : M unit :=
  fun st => (Ok tt, mkState (with_rows (db st) t rs) (out st)).

(** [try: body  except Exception as e: handler(e)] *)
Definition try_except {A : Type} (body : M A) (handler : exn -> M A) : M A :=
  fun st =>
    match body st with
    | (Ok a, st') => (Ok a, st')
    | (Raise e, st') => handler e st'
    end.

(** [with conn: body] (and pandas' [run_transaction]): commit when the body
    ends, roll back to the database at entry when it raises; what was
    printed stays printed. *)
Definition with_conn {A : Type} (body : M A) : M A :=
  fun st =>
    match body st with
    | (Ok a, st') => (Ok a, st')
    | (Raise e, st') => (Raise e, mkState (db st) (out st'))
    end.

Definition TAB : string := String (ascii_of_nat 9) EmptyString.
Definition NL : string := String (ascii_of_nat 10) EmptyString.

Section Loader.

Variable W : World.

Local Open Scope prog_scope.

(** *** The engine: one INSERT *)

(** A value stored in a column of affinity [a].  NULL and a value that is
    already of the column's class are stored as they are; the other cases
    are SQLite's conversions. *)
Definition apply_affinity (a : affinity) (v : value) : value :=
  match a, v with
  | _, VNull => VNull
  | TEXT, VText _ => v
  | INTEGER, VInt _ => v
  | REAL, VReal _ => v
  | _, _ => convert W a v
  end.

Definition coerce_row (def : table_def) (r : row) : row :=
  map (fun cv => apply_affinity (snd (fst cv)) (snd cv)) (combine (t_columns def) r).

Inductive verdict : Type :=
| Inserted (rows' : list row)
| Skipped
| Failed (e : exn).

(** The conflict policy in force: the [OR] clause of the statement if it has
    one, else the clause declared with the constraint. *)
Definition resolve (or_clause : option conflict) (declared : conflict) : conflict :=
  match or_clause with
  | Some c => c
  | None => declared
  end.

Definition on_conflict (c : conflict) : verdict :=
  match c with
  | IGNORE => Skipped
  | ABORT => Failed IntegrityError
  end.

Definition key_taken (rows : list row) (k : value) : bool :=
  existsb (fun r => value_eqb (col 0 r) k) rows.

(** Two rows clash on a UNIQUE constraint when they agree on each of its
    columns and none of these is NULL. *)
Definition clashes (cols : list nat) (r r' : row) : bool :=
  forallb (fun c => sql_eq (col c r) (col c r')) cols.

Definition unique_violated (def : table_def) (rows : list row) (r : row) : bool :=
  existsb (fun cols => existsb (clashes cols r) rows) (t_unique def).

Definition rowid_of (r : row) : Z :=
  match col 0 r with
  | VInt z => z
  | _ => 0%Z
  end.

(** The rowid SQLite picks for a NULL key: one more than the largest in use,
    1 in an empty table. *)
Definition next_rowid (rows : list row) : Z :=
  match rows with
  | [] => 1%Z
  | r :: rest => (fold_left Z.max (map rowid_of rest) (rowid_of r) + 1)%Z
  end.

(** One row offered to a table that holds [rows]: the affinities are
    applied, then the key is checked (NOT NULL, or the rowid rules of an
    INTEGER PRIMARY KEY), then its uniqueness, then the UNIQUE constraints. *)
Definition insert_row (def : table_def) (or_clause : option conflict)
    (rows : list row) (r : row) : verdict :=
  let r := coerce_row def r in
  let checked (r : row) : verdict :=
    if key_taken rows (col 0 r)
    then on_conflict (resolve or_clause (t_pk_conflict def))
    else if unique_violated def rows r
    then on_conflict (resolve or_clause ABORT)
    else Inserted (rows ++ [r]) in
  match col 0 r with
  | VNull =>
      if t_rowid def
      then checked (VInt (next_rowid rows) :: tl r)
      else on_conflict (resolve or_clause ABORT)
  | VInt _ => checked r
  | _ => if t_rowid def then Failed IntegrityError else checked r
  end.

(** The loop of [executemany]: each parameter row must bring [nvalues]
    values; [place] puts them at the columns the statement names.  The
    count is [cursor.rowcount]. *)
Fixpoint insert_loop (t : table) (or_clause : option conflict) (nvalues : nat)
    (place : row -> row) (params : list row) (count : nat) : M nat :=
  match params with
  | [] => ret count
  | p :: rest =>
      if Nat.eqb (List.length p) nvalues then
        rows <- get_rows t ;;
        match insert_row (def_of t) or_clause rows (place p) with
        | Inserted rows' =>
            put_rows t rows' ;;
            insert_loop t or_clause nvalues place rest (S count)
        | Skipped => insert_loop t or_clause nvalues place rest count
        | Failed e => raise e
        end
      else raise ProgrammingError
  end.

(** [cursor.executemany("INSERT OR IGNORE INTO {table_name} VALUES (?,..,?)",
    rows)] with [nvalues] question marks. *)
Definition executemany_insert_or_ignore (table_name : string) (nvalues : nat)
    (params : list row) : M nat :=
  match table_of_name table_name with
  | None => raise OperationalError
  | Some t =>
      if Nat.eqb nvalues (arity t)
      then insert_loop t (Some IGNORE) nvalues (fun p => p) params 0
      else raise OperationalError
  end.

(** *** pandas' [to_sql] *)

Definition frame_row (df : DataFrame) (i : nat) : row :=
  map (fun kv => bind_cell (nth i (snd kv) CNaN)) (columns df).

Fixpoint position (name : string) (names : list string) : option nat :=
  match names with
  | [] => None
  | n :: rest =>
      if ident_eqb n name then Some O
      else match position name rest with
           | Some j => Some (S j)
           | None => None
           end
  end.

(** [INSERT INTO t (names) VALUES (vals)]: a column takes the value of the
    first name that denotes it, and NULL when none does. *)
Definition place_named (def : table_def) (names : list string) (vals : row) : row :=
  map (fun c => match position (fst c) names with
                | Some j => nth j vals VNull
                | None => VNull
                end) (t_columns def).

Definition known_columns (def : table_def) (names : list string) : bool :=
  forallb (fun n => existsb (fun c => ident_eqb (fst c) n) (t_columns def)) names.

Definition schema_table (name : string) : option table :=
  if String.eqb name "areas" then Some Areas
  else if String.eqb name "items" then Some Items
  else if String.eqb name "periods" then Some Periods
  else if String.eqb name "data" then Some Data
  else None.

(** [df.to_sql(name, conn, if_exists='append', index=False)] on a table of
    the schema: nothing to do for a frame without rows; otherwise one
    [INSERT INTO name (columns) VALUES (?,..,?)] run over all rows inside
    one transaction.  For a name that is no table of the schema pandas
    creates a table of its own; the four tables stay as they are, and the
    model keeps nothing else. *)
Definition to_sql (df : DataFrame) (name : string) : M unit :=
  match schema_table name with
  | None =>
      match table_of_name name with
      | Some _ => raise OperationalError
      | None => ret tt
      end
  | Some t =>
      match nrows df with
      | O => ret tt
      | S _ =>
          with_conn
            (if known_columns (def_of t) (column_names df)
             then
               insert_loop t None (List.length (columns df))
                 (place_named (def_of t) (column_names df))
                 (map (frame_row df) (seq 0 (nrows df))) 0 ;;
               ret tt
             else raise OperationalError)
      end
  end.

(** *** insert_tables.py *)

Definition read_text_from_url (url : string) : M (option string) :=
  emit (Fetch url) ;;
  match urlopen W url with
  | Ok text => ret (Some text)
  | Raise e => print (MError e) ;; ret None
  end.

Definition text_to_df (text separator : string) : M (option DataFrame) :=
  match read_csv W text separator with
  | Ok df => ret (Some (rename_strip df))
  | Raise e => print (MError e) ;; ret None
  end.

(** [if text:] *)
Definition truthy (text : option string) : option string :=
  match text with
  | Some EmptyString => None
  | other => other
  end.

(** [[row.split(separator) for row in rows]] *)
Fixpoint split_rows (separator : string) (rows : list string) : result (list (list string)) :=
  match rows with
  | [] => Ok []
  | r :: rest =>
      match PyStr.split separator r with
      | None => Raise ValueError
      | Some fields =>
          match split_rows separator rest with
          | Ok more => Ok (fields :: more)
          | Raise e => Raise e
          end
      end
  end.

(** [len(rows[0])] *)
Definition len_first (rows : list (list string)) : result nat :=
  match rows with
  | [] => Raise IndexError
  | r :: _ => Ok (List.length r)
  end.

Definition insert_non_data_table (url table_name separator : string) : M unit :=
  try_except
    (text <- read_text_from_url url ;;
     match truthy text with
     | Some text =>
         let rows := PyStr.split_scan NL (PyStr.strip text) 0 EmptyString in
         rows <- lift (split_rows separator (tl rows)) ;;
         with_conn
           (n <- lift (len_first rows) ;;
            count <- executemany_insert_or_ignore table_name n
                       (map (map VText) rows) ;;
            print (MInserted count))
     | None => print MUnableDim
     end)
    (fun e => print (MError e)).

Definition insert_data_table (url table_name : string) (data_cols : list string)
    (separator : string) : M unit :=
  try_except
    (text <- read_text_from_url url ;;
     match truthy text with
     | Some text =>
         data <- text_to_df text separator ;;
         data <- lift (get_data_cols data) ;;
         data <- lift (arrange_data_cols data data_cols) ;;
         to_sql data table_name
     | None => print MUnableData
     end)
    (fun e => print (MError e)).

(** *** The view *)

(** [d LEFT JOIN dim ON dim.key = d.key]: the matching rows of [dim], or one
    row of NULLs. *)
Definition left_join (dim : list row) (key : value) : list (option row) :=
  match filter (fun a => sql_eq (col 0 a) key) dim with
  | [] => [None]
  | found => map Some found
  end.

Definition attr (i : nat) (r : option row) : value :=
  match r with
  | Some r => col i r
  | None => VNull
  end.

(** The rows of [data_view]: series_id, area_code, area_name, item_code,
    item_name, year, period, period_name, value. *)
Definition view_rows (d : database) : list row :=
  flat_map (fun dr =>
    flat_map (fun a =>
      flat_map (fun i =>
        map (fun p =>
               [col 1 dr; col 5 dr; attr 1 a; col 6 dr; attr 1 i;
                col 7 dr; col 8 dr; attr 2 p; col 9 dr])
            (left_join (periods d) (col 8 dr)))
        (left_join (items d) (col 6 dr)))
      (left_join (areas d) (col 5 dr)))
    (data d).

Definition define_view : M unit :=
  fun st =>
    (Ok tt,
     mkState (mkDb (areas (db st)) (items (db st)) (periods (db st))
                (data (db st)) true) (out st)).

Definition count_view : M nat :=
  fun st => (Ok (List.length (view_rows (db st))), st).

Definition create_view : M unit :=
  with_conn
    (define_view ;;
     rows <- count_view ;;
     print (MCreatedView rows)).

(** *** update_db

    [conn.close()] ends the run and has no effect on the stored tables. *)

Definition create_sqlite_connection (db_file : string) : M bool :=
  fun st =>
    match connect W db_file with
    | Some d => (Ok true, mkState d (out st ++ [Printed MOpened]))
    | None => (Ok false, mkState (db st) (out st ++ [Printed MConnectFailed]))
    end.

Definition update_db (db_file : string) : M unit :=
  let base_url := "https://download.bls.gov/pub/time.series/cu/" in
  let area_codes := "cu.area" in
  let item_codes := "cu.item" in
  let period_codes := "cu.period" in
  let data_file := "cu.data.0.Current" in
  let data_cols :=
    ["id"; "series_id"; "prefix"; "seasonal"; "periodicity"; "area_code";
     "item_code"; "year"; "period"; "value"; "footnote_codes"] in
  conn <- create_sqlite_connection db_file ;;
  if conn then
    insert_non_data_table (base_url ++ area_codes) "areas" TAB ;;
    insert_non_data_table (base_url ++ period_codes) "periods" TAB ;;
    insert_non_data_table (base_url ++ item_codes) "items" TAB ;;
    insert_data_table (base_url ++ data_file) "data" data_cols TAB ;;
    create_view
  else ret tt.

(** The names bound at module level of insert_tables.py when its last
    statement runs: the four imports and the nine functions.  ([os] is
    imported by create_db.py and example_use.py only, and is no builtin.) *)
Definition module_globals : list string :=
  ["sqlite3"; "urllib"; "pd"; "StringIO";
   "read_text_from_url"; "text_to_df"; "get_data_cols"; "arrange_data_cols";
   "create_sqlite_connection"; "insert_non_data_table"; "insert_data_table";
   "create_view"; "update_db"].

Definition load_name (name : string) : M unit :=
  if existsb (String.eqb name) module_globals
  then ret tt
  else raise (NameError name).

(** [update_db(os.environ['DATABASE_URL'])] under [if __name__ ==
    '__main__']: the callee is looked up, then the argument is evaluated,
    then the call is made. *)
Definition main_block (environ : string -> option string) : M unit :=
  load_name "update_db" ;;
  load_name "os" ;;
  match environ "DATABASE_URL" with
  | None => raise (KeyError "DATABASE_URL")
  | Some db_file => update_db db_file
  end.

End Loader.

(** The files of the CPI-U series at the BLS, as [update_db] names them. *)
Definition bls (file : string) : string :=
  ("https://download.bls.gov/pub/time.series/cu/" ++ file)%string.

(** ** Batches, invariants and reachable states *)

Section Batches.

Variable W : World.

(** The rows a table holds after [executemany] has gone through [params],
    with the outcome: the loop of [insert_loop] on the rows alone. *)
Fixpoint run_rows (def : table_def) (or_clause : option conflict) (nvalues : nat)
    (place : row -> row) (params : list row) (rows : list row) (count : nat)
    : result nat * list row :=
  match params with
  | [] => (Ok count, rows)
  | p :: rest =>
      if Nat.eqb (List.length p) nvalues then
        match insert_row W def or_clause rows (place p) with
        | Inserted rows' => run_rows def or_clause nvalues place rest rows' (S count)
        | Skipped => run_rows def or_clause nvalues place rest rows count
        | Failed e => (Raise e, rows)
        end
      else (Raise ProgrammingError, rows)
  end.

(** A whole batch under insert-or-ignore: every row in turn is appended or
    passed over. *)
Definition insert_or_ignore_all (def : table_def) (params rows : list row) : list row :=
  fold_left
    (fun rows p =>
       match insert_row W def (Some IGNORE) rows p with
       | Inserted rows' => rows'
       | _ => rows
       end)
    params rows.

(** The text a dimension load goes on with. *)
Definition fetched (url : string) : option string :=
  truthy (match urlopen W url with
          | Ok text => Some text
          | Raise _ => None
          end).

(** The data rows of a dimension text: the lines after the header, split at
    the separator. *)
Definition data_rows (text separator : string) : result (list (list string)) :=
  split_rows separator (tl (PyStr.split_scan NL (PyStr.strip text) 0 EmptyString)).

(** What one dimension load does to a database and what it puts out: the
    cases of [insert_non_data_table], one by one. *)
Definition dimension_load (url table_name separator : string) (d : database)
    : database * list event :=
  match urlopen W url with
  | Raise e => (d, [Fetch url; Printed (MError e); Printed MUnableDim])
  | Ok EmptyString => (d, [Fetch url; Printed MUnableDim])
  | Ok text =>
      match data_rows text separator with
      | Raise e => (d, [Fetch url; Printed (MError e)])
      | Ok [] => (d, [Fetch url; Printed (MError IndexError)])
      | Ok (r0 :: rest) =>
          match table_of_name table_name with
          | None => (d, [Fetch url; Printed (MError OperationalError)])
          | Some t =>
              if Nat.eqb (List.length r0) (arity t) then
                match run_rows (def_of t) (Some IGNORE) (List.length r0)
                        (fun p => p) (map (map VText) (r0 :: rest))
                        (rows_of d t) 0 with
                | (Ok n, rows') =>
                    (with_rows d t rows', [Fetch url; Printed (MInserted n)])
                | (Raise e, _) => (d, [Fetch url; Printed (MError e)])
                end
              else (d, [Fetch url; Printed (MError OperationalError)])
          end
      end
  end.

(** The frame the fact load hands to [to_sql]: parsed, renamed, decomposed
    and arranged. *)
Definition fact_frame (text separator : string) (data_cols : list string)
    : result DataFrame :=
  (let? data := get_data_cols (match read_csv W text separator with
                               | Ok df => Some (rename_strip df)
                               | Raise _ => None
                               end) in
   arrange_data_cols data data_cols)%result.

(** What [to_sql] does to a database, and how it ends. *)
Definition sql_load (df : DataFrame) (name : string) (d : database)
    : result unit * database :=
  match schema_table name with
  | None =>
      (match table_of_name name with
       | Some _ => Raise OperationalError
       | None => Ok tt
       end, d)
  | Some t =>
      match nrows df with
      | O => (Ok tt, d)
      | S _ =>
          if known_columns (def_of t) (column_names df) then
            match run_rows (def_of t) None (List.length (columns df))
                    (place_named (def_of t) (column_names df))
                    (map (frame_row df) (seq 0 (nrows df))) (rows_of d t) 0 with
            | (Ok _, rows') => (Ok tt, with_rows d t rows')
            | (Raise e, _) => (Raise e, d)
            end
          else (Raise OperationalError, d)
      end
  end.

(** What one fact load does to a database and what it puts out: the cases
    of [insert_data_table], one by one. *)
Definition fact_load (url table_name : string) (data_cols : list string)
    (separator : string) (d : database) : database * list event :=
  match urlopen W url with
  | Raise e => (d, [Fetch url; Printed (MError e); Printed MUnableData])
  | Ok EmptyString => (d, [Fetch url; Printed MUnableData])
  | Ok text =>
      let parse_msgs :=
        match read_csv W text separator with
        | Ok _ => []
        | Raise e => [Printed (MError e)]
        end in
      match fact_frame text separator data_cols with
      | Raise e => (d, Fetch url :: parse_msgs ++ [Printed (MError e)])
      | Ok df =>
          match sql_load df table_name d with
          | (Ok _, d') => (d', Fetch url :: parse_msgs)
          | (Raise e, d') => (d', Fetch url :: parse_msgs ++ [Printed (MError e)])
          end
      end
  end.

(** The rows of a frame as the fact table stores them: placed at the named
    columns, with the affinities applied. *)
Definition offered (df : DataFrame) : list row :=
  map (fun i =>
         coerce_row W create_data_query
           (place_named create_data_query (column_names df) (frame_row df i)))
      (seq 0 (nrows df)).

End Batches.

(** The keys of a table: column 0 of every row, none NULL, no two equal. *)
Definition keys_ok (rows : list row) : Prop :=
  NoDup (map (col 0) rows) /\ Forall (fun r => col 0 r <> VNull) rows.

(** No two rows clash on the UNIQUE constraint over [cols]. *)
Definition unique_ok (cols : list nat) (rows : list row) : Prop :=
  forall (i j : nat) (r r' : row),
    nth_error rows i = Some r -> nth_error rows j = Some r' ->
    clashes cols r r' = true -> i = j.

Definition table_ok (def : table_def) (rows : list row) : Prop :=
  keys_ok rows /\ Forall (fun cols => unique_ok cols rows) (t_unique def).

Definition db_ok (d : database) : Prop :=
  forall t : table, table_ok (def_of t) (rows_of d t).

(** A program keeps a property of the database, however it ends. *)
Definition preserves {A : Type} (P : database -> Prop) (m : M A) : Prop :=
  forall st : state, P (db st) -> P (db (snd (m st))).

(** Every table of [d'] begins with the rows it has in [d]. *)
Definition extends (d d' : database) : Prop :=
  forall t : table, exists more, rows_of d' t = rows_of d t ++ more.

(** One call of a loader or of [create_view], with any arguments. *)
Inductive step (W : World) : state -> state -> Prop :=
| step_dimension (url table_name separator : string) (st : state) :
    step W st (snd (insert_non_data_table W url table_name separator st))
| step_data (url table_name : string) (data_cols : list string)
    (separator : string) (st : state) :
    step W st (snd (insert_data_table W url table_name data_cols separator st))
| step_view (st : state) :
    step W st (snd (create_view st)).

(** The states the loaders reach from the freshly created schema. *)
Inductive reachable (W : World) : state -> Prop :=
| reach_created (o : list event) : reachable W (mkState empty_db o)
| reach_step (st st' : state) :
    reachable W st -> step W st st' -> reachable W st'.

(** The key (series_id, year, period) of a fact row. *)
Definition observation_key (r : row) : value * value * value :=
  (col 1 r, col 7 r, col 8 r).

Definition int_key (r : row) : bool :=
  match col 0 r with
  | VInt _ => true
  | _ => false
  end.

Definition key_not_null (r : row) : bool :=
  negb (is_null (col 1 r)) && negb (is_null (col 7 r)) && negb (is_null (col 8 r)).

(** ** The view, row by row *)

(** The row of [dim] whose key is [key], if any: the first match. *)
Definition lookup (dim : list row) (key : value) : option row :=
  find (fun a => sql_eq (col 0 a) key) dim.

(** The view row of one fact row when every key matches at most once. *)
Definition view_row (d : database) (dr : row) : row :=
  [col 1 dr; col 5 dr; attr 1 (lookup (areas d) (col 5 dr));
   col 6 dr; attr 1 (lookup (items d) (col 6 dr));
   col 7 dr; col 8 dr; attr 2 (lookup (periods d) (col 8 dr)); col 9 dr].

(** The URLs asked for, in order. *)
Definition fetches (evs : list event) : list string :=
  flat_map (fun e => match e with
                     | Fetch url => [url]
                     | Printed _ => []
                     end) evs.

(** ** create_db.py

    The program runs on a database file in which each table of the schema
    may still be absent.  Its four statements are the [CREATE TABLE IF NOT
    EXISTS] of [create_data_query], [create_items_query],
    [create_periods_query] and [create_areas_query]; a statement is named
    here by the table it declares. *)

Module CreateDb.

Record file : Type := mkFile {
  f_areas : option (list row);
  f_items : option (list row);
  f_periods : option (list row);
  f_data : option (list row);
  f_view : bool
}.


Definition table_in (f : file) (t : table) : option (list row) :=
  match t with
  | Areas => f_areas f
  | Items => f_items f
  | Periods => f_periods f
  | Data => f_data f
  end.

Definition with_table (f : file) (t : table) (rs : list row) : file :=
  match t with
  | Areas => mkFile (Some rs) (f_items f) (f_periods f) (f_data f) (f_view f)
  | Items => mkFile (f_areas f) (Some rs) (f_periods f) (f_data f) (f_view f)
  | Periods => mkFile (f_areas f) (f_items f) (Some rs) (f_data f) (f_view f)
  | Data => mkFile (f_areas f) (f_items f) (f_periods f) (Some rs) (f_view f)
  end.

(** The lines the program prints. *)
Inductive line : Type :=
| Opened                  (* 'Opened database successfully' *)
| ConnectFailed           (* print(e) in create_sqlite_connection *)
| TableCreated            (* 'Table has been created in the database' *)
| Error (e : exn).        (* f'Error: {e}' *)

Record run : Type := mkRun {
  content : file;
  printed : list line
}.

(** [cursor.execute(query)]: a table that is absent is created without
    rows; one that exists is left alone, and that is no error. *)
Definition execute (query : table) (f : file) : result file :=
  Ok (match table_in f query with
      | Some _ => f
      | None => with_table f query []
      end).

(** [create_table(conn, query)] *)
Definition create_table (query : table) (r : run) : run :=
  match execute query (content r) with
  | Ok f => mkRun f (printed r ++ [TableCreated])
  | Raise e => mkRun (content r) (printed r ++ [Error e])
  end.

(** [main(db_file)]: the file after the run ([None] without a connection)
    and the lines printed.  [connect] is [sqlite3.connect]: the content of
    the file at a path, [None] for an [sqlite3.Error]. *)
Definition main (connect : string -> option file) (db_file : string)
    : option file * list line :=
  match connect db_file with
  | Some f =>
      let r := mkRun f [Opened] in
      let r := create_table Data r in
      let r := create_table Items r in
      let r := create_table Periods r in
      let r := create_table Areas r in
      (Some (content r), printed r)
  | None => (None, [ConnectFailed])
  end.


End CreateDb.

(** ** example_use.py *)

Module ExampleUse.

(** What ends [main] early: [sqlite3.connect] failed, or pandas could not
    run the query because [data_view] is not defined; neither is caught. *)
Inductive failure : Type :=
| ConnectError
| DatabaseError.

Inductive outcome : Type :=
| Queried (records : nat)       (* f"Queried {len(df.index)} records." *)
| Uncaught (f : failure).

(** [WHERE area_code = '0000' AND item_code = 'SA0'] on a row of the view *)
Definition selected (v : row) : bool :=
  sql_eq (col 1 v) (VText "0000") && sql_eq (col 3 v) (VText "SA0").

(** [pd.read_sql_query(example_query, conn)]: the rows of the frame *)
Definition example_query (d : database) : list row :=
  filter selected (view_rows d).

Definition main (W : World) (db_file : string) : outcome :=
  match connect W db_file with
  | None => Uncaught ConnectError
  | Some d =>
      if data_view d
      then Queried (List.length (example_query d))
      else Uncaught DatabaseError
  end.

(** The fact rows of area 0000 and item SA0. *)
Definition us_all_items (dr : row) : bool :=
  sql_eq (col 5 dr) (VText "0000") && sql_eq (col 6 dr) (VText "SA0").

End ExampleUse.

(** ** Sample inputs *)

(** A fact file of one observation, as [read_csv] returns it. *)
Definition one_row_frame : DataFrame :=
  mkFrame (RangeIndex 1)
    [("series_id        ", [CStr "CUSR0000SA0      "]);
     ("year", [CInt 2020]);
     ("period", [CStr "M01"]);
     ("       value", [CFloat 4643245890017674920]);
     ("footnote_codes", [CNaN])].

(** A series id with a blank between the area code and the item code. *)
Definition blank_item_frame : DataFrame :=
  mkFrame (RangeIndex 1) [("series_id", [CStr "CUSR0000 SA0"])].

Definition tabbed (fields : list string) : string := String.concat TAB fields.

Definition lines (rows : list string) : string :=
  (String.concat NL rows ++ NL)%string.

(** cu.area with one area. *)
Definition areas_text : string :=
  lines [tabbed ["area_code"; "area_name"; "display_level"; "selectable"; "sort_sequence"];
         tabbed ["0000"; "U.S. city average"; "0"; "T"; "1"]].

(** cu.area with a second data row of three fields. *)
Definition short_row_text : string :=
  lines [tabbed ["area_code"; "area_name"; "display_level"; "selectable"; "sort_sequence"];
         tabbed ["0000"; "U.S. city average"; "0"; "T"; "1"];
         tabbed ["A100"; "Northeast"; "1"]].

(** A dimension file that is a header and nothing else. *)
Definition header_only_text : string :=
  lines [tabbed ["area_code"; "area_name"; "display_level"; "selectable"; "sort_sequence"]].

(** cu.data.0.Current with the one observation of [one_row_frame]. *)
Definition data_text : string :=
  lines [tabbed ["series_id        "; "year"; "period"; "       value"; "footnote_codes"];
         tabbed ["CUSR0000SA0      "; "2020"; "M01"; "     257.971"; ""]].

(** A fact file of two observations without a year: both cells of the
    column are empty, so pandas reads them as missing. *)
Definition no_year_text : string :=
  lines [tabbed ["series_id"; "year"; "period"; "value"; "footnote_codes"];
         tabbed ["CUSR0000SA0"; ""; "M01"; "257.971"; ""];
         tabbed ["CUSR0000SA0"; ""; "M01"; "257.971"; ""]].

Definition no_year_frame : DataFrame :=
  mkFrame (RangeIndex 2)
    [("series_id", [CStr "CUSR0000SA0"; CStr "CUSR0000SA0"]);
     ("year", [CNaN; CNaN]);
     ("period", [CStr "M01"; CStr "M01"]);
     ("value", [CFloat 4643245890017674920; CFloat 4643245890017674920]);
     ("footnote_codes", [CNaN; CNaN])].

(** The column list of [update_db]. *)
Definition update_cols : list string :=
  ["id"; "series_id"; "prefix"; "seasonal"; "periodicity"; "area_code";
   "item_code"; "year"; "period"; "value"; "footnote_codes"].

(** A world in which the URL "areas" serves [areas_text], "short"
    [short_row_text], "header" [header_only_text], "data" [data_text] and
    "noyear" [no_year_text]; every other request fails.  The conversions of
    the engine are never needed on these files. *)
Definition sample_world : World :=
  mkWorld
    (fun url =>
       if String.eqb url "areas" then Ok areas_text
       else if String.eqb url "short" then Ok short_row_text
       else if String.eqb url "header" then Ok header_only_text
       else if String.eqb url "data" then Ok data_text
       else if String.eqb url "noyear" then Ok no_year_text
       else Raise URLError)
    (fun text separator =>
       if String.eqb text data_text then Ok one_row_frame
       else if String.eqb text no_year_text then Ok no_year_frame
       else Raise ParserError)
    (fun _ v => v)
    (fun _ => Some empty_db).

Definition fresh : state := mkState empty_db [].

(** The fact table loaded once into the fresh schema, no dimension loaded. *)
Definition facts_loaded : state :=
  snd (insert_data_table sample_world "data" "data" update_cols TAB fresh).

(** The file without years loaded into the fresh schema. *)
Definition no_year_loaded : state :=
  snd (insert_data_table sample_world "noyear" "data" update_cols TAB fresh).

(** More sample frames: a series id of three characters, a frame without
    a [series_id] column, and one whose series ids were read as numbers. *)
Definition short_id_frame : DataFrame :=
  mkFrame (RangeIndex 1) [("series_id", [CStr "CUS"]); ("year", [CInt 2020])].

Definition no_series_frame : DataFrame :=
  mkFrame (RangeIndex 1) [("year", [CInt 2020]); ("period", [CStr "M01"])].

Definition numeric_id_frame : DataFrame :=
  mkFrame (RangeIndex 2)
    [("series_id", [CStr "CUSR0000SA0"; CInt 12345678]); ("year", [CInt 2020; CInt 2020])].

(** A world in which every URL answers with an empty body. *)
Definition empty_world : World :=
  mkWorld
    (fun _ => Ok EmptyString)
    (fun _ _ => Raise ParserError)
    (fun _ v => v)
    (fun _ => Some empty_db).

(** The area file and then the fact file loaded into the fresh schema, and
    the view built. *)
Definition all_loaded : state :=
  snd (create_view
         (snd (insert_data_table sample_world "data" "data" update_cols TAB
                 (snd (insert_non_data_table sample_world "areas" "areas" TAB
                         fresh))))).

(** A world whose database file holds what [all_loaded] left. *)
Definition loaded_world : World :=
  mkWorld (urlopen sample_world) (read_csv sample_world) (convert sample_world)
    (fun _ => Some (db all_loaded)).

(** A world whose database file holds what a run of [update_db] in
    [sample_world] left. *)
Definition updated_world : World :=
  mkWorld (urlopen sample_world) (read_csv sample_world) (convert sample_world)
    (fun _ => Some (db (snd (update_db sample_world "cpi-u.db" fresh)))).


(** A database that holds the observation of [data_text] under id 7, as a
    longer file loaded earlier would have left it. *)
Definition stored_under_7 : state :=
  mkState
    (mkDb [] [] []
       [[VInt 7; VText "CUSR0000SA0      "; VText "CU"; VText "S"; VText "R";
         VText "0000"; VText "SA0"; VInt 2020; VText "M01";
         VReal 4643245890017674920; VNull]]
       false)
    [].

(** cu.area with the name of area 0000 changed. *)
Definition renamed_area_text : string :=
  lines [tabbed ["area_code"; "area_name"; "display_level"; "selectable"; "sort_sequence"];
         tabbed ["0000"; "All cities"; "0"; "T"; "1"]].

Definition renaming_world : World :=
  mkWorld
    (fun url =>
       if String.eqb url "areas" then Ok areas_text
       else if String.eqb url "renamed" then Ok renamed_area_text
       else Raise URLError)
    (read_csv sample_world) (convert sample_world) (connect sample_world).

(** The area file loaded once in [renaming_world]. *)
Definition area_loaded : state :=
  snd (insert_non_data_table renaming_world "areas" "areas" TAB fresh).

(** * Properties *)

(** ** Strings *)

Section StringFacts.

Import PyStr.
Local Open Scope string_scope.

Lemma take_length (n : nat) (s : string) :
  String.length (take n s) = Nat.min n (String.length s).
Proof.
  revert s; induction n as [|n IH]; intros [|c s]; simpl; auto.
Qed.

Lemma drop_length (n : nat) (s : string) :
  String.length (drop n s) = String.length s - n.
Proof.
  revert s; induction n as [|n IH]; intros [|c s]; simpl; auto.
Qed.

Lemma slice_length (i j : nat) (s : string) :
  j <= String.length s -> String.length (slice i j s) = j - i.
Proof.
  intros H. unfold slice. rewrite take_length, drop_length. lia.
Qed.

Lemma take_drop (n : nat) (s : string) : take n s ++ drop n s = s.
Proof.
  revert s; induction n as [|n IH]; intros [|c s]; simpl; auto.
  now rewrite IH.
Qed.

Lemma take_add (a b : nat) (s : string) :
  take (a + b) s = take a s ++ take b (drop a s).
Proof.
  revert s; induction a as [|a IH]; intros s.
  - destruct s; reflexivity.
  - destruct s as [|c s]; simpl.
    + destruct b; reflexivity.
    + now rewrite IH.
Qed.

Lemma drop_drop (a b : nat) (s : string) : drop b (drop a s) = drop (a + b) s.
Proof.
  revert s; induction a as [|a IH]; intros s.
  - destruct s; reflexivity.
  - destruct s as [|c s]; simpl.
    + destruct b; reflexivity.
    + apply IH.
Qed.

(** The four fixed-width fields tile the first eight characters. *)
Lemma fields_tile (s : string) :
  prefix_of s ++ seasonal_of s ++ periodicity_of s ++ area_code_of s = take 8 s.
Proof.
  unfold prefix_of, seasonal_of, periodicity_of, area_code_of, slice.
  simpl Nat.sub.
  replace (drop 0 s) with s by (destruct s; reflexivity).
  change (take 8 s) with (take (2 + 6) s). rewrite take_add. f_equal.
  change (take 6 (drop 2 s)) with (take (1 + 5) (drop 2 s)).
  rewrite take_add, drop_drop. f_equal.
  change (take 5 (drop (2 + 1) s)) with (take (1 + 4) (drop 3 s)).
  rewrite take_add, drop_drop. reflexivity.
Qed.

Lemma lstrip_split (s : string) :
  exists l, s = l ++ lstrip s /\ all_space l = true.
Proof.
  induction s as [|c s [l [E Hl]]]; simpl.
  - exists EmptyString; auto.
  - destruct (isspace c) eqn:Hc.
    + exists (String c l); simpl. rewrite Hc, Hl. split; [congruence | reflexivity].
    + exists EmptyString; auto.
Qed.

Lemma lstrip_clean_start (s : string) : clean_start (lstrip s) = true.
Proof.
  induction s as [|c s IH]; simpl; auto.
  destruct (isspace c) eqn:Hc; auto. simpl. now rewrite Hc.
Qed.

Lemma rstrip_split (s : string) :
  exists r, s = rstrip s ++ r /\ all_space r = true.
Proof.
  induction s as [|c s [r [E Hr]]]; simpl.
  - exists EmptyString; auto.
  - destruct (rstrip s) as [|d t] eqn:Hs.
    + destruct (isspace c) eqn:Hc.
      * exists (String c r). simpl in *. rewrite Hc, Hr. split; [congruence | reflexivity].
      * exists r. simpl in *. split; [congruence | assumption].
    + exists r. split; [|assumption]. simpl. f_equal. exact E.
Qed.

Lemma rstrip_clean_end (s : string) : clean_end (rstrip s) = true.
Proof.
  induction s as [|c s IH]; simpl; auto.
  destruct (rstrip s) as [|d t] eqn:Hs.
  - destruct (isspace c) eqn:Hc; simpl; auto. now rewrite Hc.
  - simpl in *. exact IH.
Qed.

Lemma rstrip_clean_start (s : string) :
  clean_start s = true -> clean_start (rstrip s) = true.
Proof.
  destruct s as [|c s]; simpl; auto.
  intros Hc. destruct (rstrip s); simpl; auto.
  destruct (isspace c) eqn:E; simpl; auto. now rewrite E.
Qed.

(** [strip] removes whitespace from both ends and nothing else. *)
Lemma strip_spec (s : string) :
  exists l r,
    s = l ++ strip s ++ r /\ all_space l = true /\ all_space r = true /\
    clean_start (strip s) = true /\ clean_end (strip s) = true.
Proof.
  destruct (lstrip_split s) as [l [El Hl]].
  destruct (rstrip_split (lstrip s)) as [r [Er Hr]].
  exists l, r. unfold strip. repeat split; auto.
  - now rewrite <- Er.
  - apply rstrip_clean_start, lstrip_clean_start.
  - apply rstrip_clean_end.
Qed.

End StringFacts.

(** ** Data frames *)

Section FrameFacts.

Lemma named_other (name src : string) (vals : list cell) :
  name <> src -> named src (name, vals) = false.
Proof.
  intros H. unfold named; simpl. now apply String.eqb_neq.
Qed.

Lemma filter_replace_other (name src : string) (vals : list cell)
    (cols : list (string * list cell)) :
  name <> src ->
  filter (named src) (replace_col name vals cols) = filter (named src) cols.
Proof.
  intros H. unfold replace_col.
  induction cols as [|[k v] cols IH]; simpl; auto.
  destruct (named name (k, v)) eqn:E; simpl.
  - apply String.eqb_eq in E; simpl in E; subst k.
    rewrite !named_other by assumption. exact IH.
  - rewrite IH. reflexivity.
Qed.

(** Assigning a column leaves the columns of every other name alone. *)
Lemma filter_setitem_other (df : DataFrame) (name src : string) (vals : list cell) :
  name <> src ->
  filter (named src) (columns (setitem df name vals)) = filter (named src) (columns df).
Proof.
  intros H. unfold setitem; simpl.
  destruct (has_col name (columns df)).
  - now apply filter_replace_other.
  - rewrite filter_app. simpl. rewrite named_other by assumption.
    apply app_nil_r.
Qed.

Lemma find_replace_same (name : string) (vals : list cell)
    (cols : list (string * list cell)) :
  has_col name cols = true ->
  find (named name) (replace_col name vals cols) = Some (name, vals).
Proof.
  unfold has_col, replace_col.
  induction cols as [|[k v] cols IH]; simpl; [discriminate|].
  destruct (named name (k, v)) eqn:E; simpl.
  - intros _. unfold named in *; simpl in *. rewrite E.
    apply String.eqb_eq in E. now subst.
  - intros H. rewrite E. now apply IH.
Qed.

Lemma find_app {A : Type} (f : A -> bool) (l1 l2 : list A) :
  find f (l1 ++ l2) = match find f l1 with
                      | Some x => Some x
                      | None => find f l2
                      end.
Proof.
  induction l1 as [|a l1 IH]; simpl; auto. now destruct (f a).
Qed.

Lemma find_absent (name : string) (cols : list (string * list cell)) :
  has_col name cols = false -> find (named name) cols = None.
Proof.
  unfold has_col.
  induction cols as [|kv cols IH]; simpl; auto.
  destruct (named name kv); simpl; [discriminate | exact IH].
Qed.

(** After [data[name] = vals] the column [name] reads [vals]. *)
Lemma cell_at_setitem_same (df : DataFrame) (name : string) (vals : list cell) (i : nat) :
  cell_at (setitem df name vals) name i = nth_error vals i.
Proof.
  unfold cell_at, setitem; simpl.
  destruct (has_col name (columns df)) eqn:E.
  - now rewrite find_replace_same.
  - rewrite find_app, (find_absent _ _ E). simpl.
    unfold named; simpl. now rewrite String.eqb_refl.
Qed.

Lemma find_replace_other (name other : string) (vals : list cell)
    (cols : list (string * list cell)) :
  name <> other ->
  find (named other) (replace_col name vals cols) = find (named other) cols.
Proof.
  intros H. unfold replace_col.
  induction cols as [|[k v] cols IH]; simpl; auto.
  destruct (named name (k, v)) eqn:E; simpl.
  - apply String.eqb_eq in E; simpl in E; subst k.
    rewrite !named_other by assumption. exact IH.
  - now rewrite IH.
Qed.

(** ... and every other column reads as before. *)
Lemma cell_at_setitem_other (df : DataFrame) (name other : string)
    (vals : list cell) (i : nat) :
  name <> other ->
  cell_at (setitem df name vals) other i = cell_at df other i.
Proof.
  intros H. unfold cell_at, setitem; simpl.
  destruct (has_col name (columns df)).
  - now rewrite find_replace_other.
  - rewrite find_app.
    destruct (find (named other) (columns df)); auto.
    simpl. now rewrite named_other.
Qed.

Lemma series_apply_strs (f : string -> string) (ss : list string) :
  series_apply f (map CStr ss) = Ok (map (fun s => CStr (f s)) ss).
Proof.
  induction ss as [|s ss IH]; simpl; auto. now rewrite IH.
Qed.

Lemma assign_apply_strs (df : DataFrame) (target : string) (f : string -> string)
    (ss : list string) :
  filter (named "series_id") (columns df) = [("series_id", map CStr ss)] ->
  assign_apply df target "series_id" f
  = Ok (setitem df target (map (fun s => CStr (f s)) ss)).
Proof.
  intros H. unfold assign_apply. now rewrite H, series_apply_strs.
Qed.

(** [get_data_cols] succeeds on a frame whose index has a [+ 1] and whose
    one [series_id] column holds strings, and builds [decomposed]. *)
Lemma get_data_cols_ok (df : DataFrame) (ids : list cell) (ss : list string) :
  index_add1 (index df) = Ok ids ->
  filter (named "series_id") (columns df) = [("series_id", map CStr ss)] ->
  get_data_cols (Some df) = Ok (decomposed df ids ss).
Proof.
  intros Hi Hs. unfold get_data_cols, decomposed. rewrite Hi. simpl rbind.
  repeat (rewrite (assign_apply_strs _ _ _ ss);
          [simpl rbind
          | repeat (rewrite filter_setitem_other by discriminate); exact Hs]).
  reflexivity.
Qed.

Lemma nth_error_map_str (f : string -> string) (ss : list string) (i : nat) (s : string) :
  nth_error ss i = Some s ->
  nth_error (map (fun s => CStr (f s)) ss) i = Some (CStr (f s)).
Proof.
  intros H. now rewrite nth_error_map, H.
Qed.

(** The derived columns of [decomposed], read row by row. *)
Lemma decomposed_cells (df : DataFrame) (ids : list cell) (ss : list string)
    (i : nat) (s : string) :
  nth_error ss i = Some s ->
  cell_at (decomposed df ids ss) "prefix" i = Some (CStr (prefix_of s)) /\
  cell_at (decomposed df ids ss) "seasonal" i = Some (CStr (seasonal_of s)) /\
  cell_at (decomposed df ids ss) "periodicity" i = Some (CStr (periodicity_of s)) /\
  cell_at (decomposed df ids ss) "area_code" i = Some (CStr (area_code_of s)) /\
  cell_at (decomposed df ids ss) "item_code" i = Some (CStr (item_code_of s)).
Proof.
  intros H. unfold decomposed.
  repeat split;
    repeat (rewrite cell_at_setitem_other by discriminate);
    rewrite cell_at_setitem_same; now apply nth_error_map_str.
Qed.


End FrameFacts.

(** C1.  On a frame whose [series_id] column holds strings, [get_data_cols]
    returns, and for every row whose series id has at least 8 characters the
    new columns hold a prefix of 2 characters, a seasonal field of 1, a
    periodicity field of 1, an area code of 4 and, as item code, the rest of
    the series id stripped; the first four fields put together are the first
    8 characters of the series id. *)
Theorem get_data_cols_fixed_fields :
  forall (df : DataFrame) (ids : list cell) (ss : list string),
    index_add1 (index df) = Ok ids ->
    filter (named "series_id") (columns df) = [("series_id", map CStr ss)] ->
    exists data,
      get_data_cols (Some df) = Ok data /\
      forall (i : nat) (s : string),
        nth_error ss i = Some s ->
        8 <= String.length s ->
        exists p se pe a it,
          cell_at data "prefix" i = Some (CStr p) /\
          cell_at data "seasonal" i = Some (CStr se) /\
          cell_at data "periodicity" i = Some (CStr pe) /\
          cell_at data "area_code" i = Some (CStr a) /\
          cell_at data "item_code" i = Some (CStr it) /\
          String.length p = 2 /\ String.length se = 1 /\
          String.length pe = 1 /\ String.length a = 4 /\
          it = PyStr.strip (PyStr.drop 8 s) /\
          (p ++ se ++ pe ++ a)%string = PyStr.take 8 s.
Proof.
  intros df ids ss Hi Hs.
  exists (decomposed df ids ss). split; [now apply get_data_cols_ok|].
  intros i s Hn Hlen.
  destruct (decomposed_cells df ids ss i s Hn) as (Hp & Hse & Hpe & Ha & Hit).
  exists (prefix_of s), (seasonal_of s), (periodicity_of s), (area_code_of s),
    (item_code_of s).
  repeat split; auto;
    try (unfold prefix_of, seasonal_of, periodicity_of, area_code_of;
         rewrite slice_length; lia).
  apply fields_tile.
Qed.

Lemma get_data_cols_fixed_fields_witness :
  index_add1 (index (rename_strip one_row_frame)) = Ok [CInt 1] /\
  exists data,
    get_data_cols (Some (rename_strip one_row_frame)) = Ok data /\
    forall (i : nat) (s : string),
      nth_error ["CUSR0000SA0      "] i = Some s ->
      8 <= String.length s ->
      exists p se pe a it,
        cell_at data "prefix" i = Some (CStr p) /\
        cell_at data "seasonal" i = Some (CStr se) /\
        cell_at data "periodicity" i = Some (CStr pe) /\
        cell_at data "area_code" i = Some (CStr a) /\
        cell_at data "item_code" i = Some (CStr it) /\
        String.length p = 2 /\ String.length se = 1 /\
        String.length pe = 1 /\ String.length a = 4 /\
        it = PyStr.strip (PyStr.drop 8 s) /\
        (p ++ se ++ pe ++ a)%string = PyStr.take 8 s.
Proof.
  split; [reflexivity|].
  apply (get_data_cols_fixed_fields (rename_strip one_row_frame)
           [CInt 1] ["CUSR0000SA0      "]); reflexivity.
Defined.

(** C5, as stated, fails: with a blank at index 8 the item code loses it,
    while the rest of the series id trimmed on the right only keeps it. *)
Lemma item_code_leading_blank_counterexample :
  exists data,
    get_data_cols (Some blank_item_frame) = Ok data /\
    cell_at data "item_code" 0 = Some (CStr "SA0") /\
    cell_at data "item_code" 0
    <> Some (CStr (PyStr.rstrip (PyStr.drop 8 "CUSR0000 SA0"))).
Proof.
  eexists. split; [reflexivity|]. split; [reflexivity|]. discriminate.
Qed.

(** C5, amended.  On a frame whose [series_id] column holds strings,
    [get_data_cols] returns, and for every series id the item code is what
    follows index 8 with the whitespace at both ends removed: the rest of
    the series id is the item code between two runs of whitespace, and the
    item code neither begins nor ends with whitespace. *)
Theorem get_data_cols_item_code_stripped :
  forall (df : DataFrame) (ids : list cell) (ss : list string),
    index_add1 (index df) = Ok ids ->
    filter (named "series_id") (columns df) = [("series_id", map CStr ss)] ->
    exists data,
      get_data_cols (Some df) = Ok data /\
      forall (i : nat) (s : string),
        nth_error ss i = Some s ->
        exists it l r,
          cell_at data "item_code" i = Some (CStr it) /\
          PyStr.drop 8 s = (l ++ it ++ r)%string /\
          all_space l = true /\ all_space r = true /\
          clean_start it = true /\ clean_end it = true.
Proof.
  intros df ids ss Hi Hs.
  exists (decomposed df ids ss). split; [now apply get_data_cols_ok|].
  intros i s Hn.
  destruct (decomposed_cells df ids ss i s Hn) as (_ & _ & _ & _ & Hit).
  destruct (strip_spec (PyStr.drop 8 s)) as (l & r & E & Hl & Hr & Hb & He).
  exists (item_code_of s), l, r. unfold item_code_of in *. auto 10.
Qed.

Lemma get_data_cols_item_code_stripped_witness :
  index_add1 (index blank_item_frame) = Ok [CInt 1] /\
  exists data,
    get_data_cols (Some blank_item_frame) = Ok data /\
    forall (i : nat) (s : string),
      nth_error ["CUSR0000 SA0"] i = Some s ->
      exists it l r,
        cell_at data "item_code" i = Some (CStr it) /\
        PyStr.drop 8 s = (l ++ it ++ r)%string /\
        all_space l = true /\ all_space r = true /\
        clean_start it = true /\ clean_end it = true.
Proof.
  split; [reflexivity|].
  apply (get_data_cols_item_code_stripped blank_item_frame
           [CInt 1] ["CUSR0000 SA0"]); reflexivity.
Defined.

(** ** The engine *)

Section EngineFacts.

Variable W : World.

Lemma value_eqb_eq (a b : value) : value_eqb a b = true <-> a = b.
Proof.
  destruct a, b; simpl; split; intros H; try discriminate; try reflexivity;
    try (apply Z.eqb_eq in H; now subst);
    try (apply String.eqb_eq in H; now subst);
    injection H as ->; auto using Z.eqb_refl, String.eqb_refl.
Qed.

Lemma value_eqb_refl (a : value) : value_eqb a a = true.
Proof. now apply value_eqb_eq. Qed.

Lemma sql_eq_sym (a b : value) : sql_eq a b = sql_eq b a.
Proof.
  unfold sql_eq. destruct a, b; simpl; auto using Z.eqb_sym, String.eqb_sym.
Qed.

Lemma clashes_sym (cols : list nat) (r r' : row) :
  clashes cols r r' = clashes cols r' r.
Proof.
  unfold clashes. induction cols as [|c cols IH]; simpl; auto.
  now rewrite IH, sql_eq_sym.
Qed.

Lemma rows_of_with_rows (d : database) (t : table) (rs : list row) :
  rows_of (with_rows d t rs) t = rs.
Proof. now destruct t. Qed.

Lemma rows_of_with_rows_other (d : database) (t u : table) (rs : list row) :
  t <> u -> rows_of (with_rows d t rs) u = rows_of d u.
Proof. destruct t, u; simpl; congruence. Qed.

Lemma with_rows_twice (d : database) (t : table) (rs rs' : list row) :
  with_rows (with_rows d t rs) t rs' = with_rows d t rs'.
Proof. now destruct t. Qed.

Lemma with_rows_same (d : database) (t : table) : with_rows d t (rows_of d t) = d.
Proof. now destruct d, t. Qed.

(** [insert_loop] changes the rows of its table as [run_rows] says, and
    nothing else of the state. *)
Lemma insert_loop_run (t : table) (oc : option conflict) (n : nat)
    (place : row -> row) (params : list row) :
  forall (count : nat) (st : state),
    insert_loop W t oc n place params count st
    = (fst (run_rows W (def_of t) oc n place params (rows_of (db st) t) count),
       mkState
         (with_rows (db st) t
            (snd (run_rows W (def_of t) oc n place params (rows_of (db st) t) count)))
         (out st)).
Proof.
  induction params as [|p rest IH]; intros count st; simpl.
  - unfold ret. rewrite with_rows_same. now destruct st.
  - destruct (Nat.eqb (List.length p) n).
    + unfold bind, get_rows, put_rows.
      destruct (insert_row W (def_of t) oc (rows_of (db st) t) (place p)) eqn:E.
      * rewrite IH. simpl. now rewrite rows_of_with_rows, with_rows_twice.
      * apply IH.
      * unfold raise. simpl. rewrite with_rows_same. now destruct st.
    + unfold raise. simpl. rewrite with_rows_same. now destruct st.
Qed.

(** What an accepted row looks like. *)
Lemma insert_row_inserted (def : table_def) (oc : option conflict)
    (rows rows' : list row) (r : row) :
  insert_row W def oc rows r = Inserted rows' ->
  exists r',
    rows' = rows ++ [r'] /\
    key_taken rows (col 0 r') = false /\
    col 0 r' <> VNull /\
    unique_violated def rows r' = false.
Proof.
  unfold insert_row.
  assert (never : forall c, on_conflict c <> Inserted rows')
    by (intros []; discriminate).
  assert (checked : forall x : row,
            col 0 x <> VNull ->
            (if key_taken rows (col 0 x)
             then on_conflict (resolve oc (t_pk_conflict def))
             else if unique_violated def rows x
                  then on_conflict (resolve oc ABORT)
                  else Inserted (rows ++ [x])) = Inserted rows' ->
            exists r',
              rows' = rows ++ [r'] /\ key_taken rows (col 0 r') = false /\
              col 0 r' <> VNull /\ unique_violated def rows r' = false).
  { intros x Hx H.
    destruct (key_taken rows (col 0 x)) eqn:K; [now apply never in H|].
    destruct (unique_violated def rows x) eqn:U; [now apply never in H|].
    injection H as <-. now exists x. }
  destruct (col 0 (coerce_row W def r)) eqn:K0.
  - destruct (t_rowid def); [|intros H; now apply never in H].
    apply checked. discriminate.
  - intros H. apply (checked (coerce_row W def r)); [congruence | now rewrite K0].
  - destruct (t_rowid def); [discriminate|].
    intros H. apply (checked (coerce_row W def r)); [congruence | now rewrite K0].
  - destruct (t_rowid def); [discriminate|].
    intros H. apply (checked (coerce_row W def r)); [congruence | now rewrite K0].
Qed.

Lemma key_taken_false (rows : list row) (k : value) :
  key_taken rows k = false -> ~ In k (map (col 0) rows).
Proof.
  unfold key_taken. intros H Hin.
  apply in_map_iff in Hin as (r & <- & Hr).
  assert (existsb (fun r0 => value_eqb (col 0 r0) (col 0 r)) rows = true).
  { apply existsb_exists. exists r. split; auto using value_eqb_refl. }
  congruence.
Qed.

Lemma key_taken_true (rows : list row) (k : value) :
  In k (map (col 0) rows) -> key_taken rows k = true.
Proof.
  intros Hin. destruct (key_taken rows k) eqn:E; auto.
  now apply key_taken_false in E.
Qed.

Lemma keys_ok_snoc (rows : list row) (r : row) :
  keys_ok rows -> key_taken rows (col 0 r) = false -> col 0 r <> VNull ->
  keys_ok (rows ++ [r]).
Proof.
  intros [Hnd Hnn] Hk Hr. split.
  - rewrite map_app. simpl. apply NoDup_app; auto.
    + repeat constructor. intros [].
    + intros a Ha [<-|[]]. now apply key_taken_false in Hk.
  - apply Forall_app. split; auto.
Qed.

Lemma unique_ok_snoc (cols : list nat) (rows : list row) (r : row) :
  unique_ok cols rows -> existsb (clashes cols r) rows = false ->
  unique_ok cols (rows ++ [r]).
Proof.
  intros Hu Hr i j a b Hi Hj Hc.
  assert (fresh : forall x, In x rows -> clashes cols r x = false).
  { intros x Hx. destruct (clashes cols r x) eqn:E; auto.
    assert (existsb (clashes cols r) rows = true)
      by (apply existsb_exists; eauto).
    congruence. }
  assert (last : forall k x, nth_error (rows ++ [r]) k = Some x ->
            (k < List.length rows /\ nth_error rows k = Some x)
            \/ (k = List.length rows /\ x = r)).
  { intros k x Hk. destruct (Nat.lt_ge_cases k (List.length rows)) as [L|L].
    - left. split; auto. now rewrite nth_error_app1 in Hk.
    - right. rewrite nth_error_app2 in Hk by assumption.
      destruct (k - List.length rows) as [|m] eqn:E; simpl in Hk.
      + injection Hk as <-. split; auto. lia.
      + destruct m; discriminate. }
  destruct (last i a Hi) as [[Li Ha]|[-> ->]], (last j b Hj) as [[Lj Hb]|[-> ->]].
  - eauto.
  - apply nth_error_In in Ha. rewrite clashes_sym, fresh in Hc by assumption.
    discriminate.
  - apply nth_error_In in Hb. rewrite fresh in Hc by assumption. discriminate.
  - reflexivity.
Qed.

(** An accepted row keeps the table's constraints. *)
Lemma insert_row_ok (def : table_def) (oc : option conflict)
    (rows rows' : list row) (r : row) :
  table_ok def rows -> insert_row W def oc rows r = Inserted rows' ->
  table_ok def rows'.
Proof.
  intros [Hk Hu] H.
  apply insert_row_inserted in H as (r' & -> & K & N & U).
  split; [now apply keys_ok_snoc|].
  rewrite Forall_forall in *. intros cols Hc.
  apply unique_ok_snoc; auto.
  unfold unique_violated in U.
  destruct (existsb (clashes cols r') rows) eqn:E; auto.
  assert (existsb (fun cols0 => existsb (clashes cols0 r') rows) (t_unique def) = true)
    by (apply existsb_exists; eauto).
  congruence.
Qed.

(** [run_rows] only appends, and keeps the constraints. *)
Lemma run_rows_extends (def : table_def) (oc : option conflict) (n : nat)
    (place : row -> row) (params : list row) :
  forall (rows : list row) (count : nat),
    exists more, snd (run_rows W def oc n place params rows count) = rows ++ more.
Proof.
  induction params as [|p rest IH]; intros rows count; simpl.
  - exists []. now rewrite app_nil_r.
  - destruct (Nat.eqb (List.length p) n); [|exists []; now rewrite app_nil_r].
    destruct (insert_row W def oc rows (place p)) eqn:E.
    + apply insert_row_inserted in E as (r' & -> & _).
      destruct (IH (rows ++ [r']) (S count)) as [more Hm].
      exists (r' :: more). rewrite Hm, <- app_assoc. reflexivity.
    + apply IH.
    + exists []. now rewrite app_nil_r.
Qed.

Lemma run_rows_ok (def : table_def) (oc : option conflict) (n : nat)
    (place : row -> row) (params : list row) :
  forall (rows : list row) (count : nat),
    table_ok def rows ->
    table_ok def (snd (run_rows W def oc n place params rows count)).
Proof.
  induction params as [|p rest IH]; intros rows count Hok; simpl; auto.
  destruct (Nat.eqb (List.length p) n); auto.
  destruct (insert_row W def oc rows (place p)) eqn:E; auto.
  apply IH. eapply insert_row_ok; eauto.
Qed.

End EngineFacts.

(** ** Programs keep the constraints of the schema *)

Section Preservation.

Variable P : database -> Prop.

Lemma preserves_ret {A : Type} (a : A) : preserves P (ret a).
Proof. intros st H; exact H. Qed.

Lemma preserves_raise {A : Type} (e : exn) : preserves P (@raise A e).
Proof. intros st H; exact H. Qed.

Lemma preserves_lift {A : Type} (r : result A) : preserves P (lift r).
Proof. intros st H; exact H. Qed.

Lemma preserves_emit (e : event) : preserves P (emit e).
Proof. intros st H; exact H. Qed.

Lemma preserves_bind {A B : Type} (m : M A) (k : A -> M B) :
  preserves P m -> (forall a, preserves P (k a)) -> preserves P (bind m k).
Proof.
  intros Hm Hk st H. unfold bind.
  specialize (Hm st H). destruct (m st) as [[a|e] st']; simpl in *; auto.
  now apply Hk.
Qed.

Lemma preserves_try {A : Type} (body : M A) (handler : exn -> M A) :
  preserves P body -> (forall e, preserves P (handler e)) ->
  preserves P (try_except body handler).
Proof.
  intros Hb Hh st H. unfold try_except.
  specialize (Hb st H). destruct (body st) as [[a|e] st']; simpl in *; auto.
  now apply Hh.
Qed.

Lemma preserves_with_conn {A : Type} (body : M A) :
  preserves P body -> preserves P (with_conn body).
Proof.
  intros Hb st H. unfold with_conn.
  specialize (Hb st H). destruct (body st) as [[a|e] st']; simpl in *; auto.
Qed.

End Preservation.

Create HintDb preserve.

#[local] Hint Resolve preserves_ret preserves_raise preserves_lift preserves_emit
  preserves_bind preserves_try preserves_with_conn : preserve.

Section LoaderInvariant.

(** A property that the loop of [executemany] keeps, and that does not
    depend on whether the view is defined, is kept by both loaders and by
    [create_view]. *)

Variable W : World.
Variable P : database -> Prop.

Hypothesis loop_keeps :
  forall (t : table) (oc : option conflict) (n : nat) (place : row -> row)
         (params : list row) (count : nat),
    preserves P (insert_loop W t oc n place params count).

Hypothesis view_keeps :
  forall d : database,
    P d -> P (mkDb (areas d) (items d) (periods d) (data d) true).

Lemma insert_non_data_table_keeps (url table_name separator : string) :
  preserves P (insert_non_data_table W url table_name separator).
Proof.
  unfold insert_non_data_table, read_text_from_url, print,
    executemany_insert_or_ignore.
  apply preserves_try; [|auto with preserve].
  apply preserves_bind.
  - apply preserves_bind; [auto with preserve|]. intros _.
    destruct (urlopen W url); auto with preserve.
  - intros text. destruct (truthy text); [|auto with preserve].
    apply preserves_bind; [auto with preserve|]. intros rows.
    apply preserves_with_conn.
    apply preserves_bind; [auto with preserve|]. intros n.
    apply preserves_bind; [|auto with preserve].
    destruct (table_of_name table_name); [|auto with preserve].
    destruct (Nat.eqb n (arity t)); [|auto with preserve].
    apply loop_keeps.
Qed.

Lemma to_sql_keeps (df : DataFrame) (name : string) :
  preserves P (to_sql W df name).
Proof.
  unfold to_sql.
  destruct (schema_table name).
  - destruct (nrows df); [auto with preserve|].
    apply preserves_with_conn.
    destruct (known_columns _ _); [|auto with preserve].
    apply preserves_bind; [apply loop_keeps | auto with preserve].
  - destruct (table_of_name name); auto with preserve.
Qed.

Lemma insert_data_table_keeps (url table_name : string) (data_cols : list string)
    (separator : string) :
  preserves P (insert_data_table W url table_name data_cols separator).
Proof.
  unfold insert_data_table, read_text_from_url, text_to_df, print.
  apply preserves_try; [|auto with preserve].
  apply preserves_bind.
  - apply preserves_bind; [auto with preserve|]. intros _.
    destruct (urlopen W url); auto with preserve.
  - intros text. destruct (truthy text); [|auto with preserve].
    apply preserves_bind.
    + destruct (read_csv W s separator); auto with preserve.
    + intros data. apply preserves_bind; [auto with preserve|]. intros d1.
      apply preserves_bind; [auto with preserve|]. intros d2.
      apply to_sql_keeps.
Qed.

Lemma create_view_keeps : preserves P create_view.
Proof.
  intros st H. apply view_keeps in H. exact H.
Qed.

End LoaderInvariant.

Section SchemaKept.

Variable W : World.

Lemma db_ok_with_rows (d : database) (t : table) (rs : list row) :
  db_ok d -> table_ok (def_of t) rs -> db_ok (with_rows d t rs).
Proof.
  intros Hd Hrs u. specialize (Hd u).
  destruct t, u; simpl in *; auto.
Qed.

Lemma db_ok_empty : db_ok empty_db.
Proof.
  intros t. repeat split.
  - destruct t; constructor.
  - destruct t; constructor.
  - apply Forall_forall. intros cols _ i j r r' Hi.
    destruct t, i; discriminate.
Qed.

Lemma insert_loop_ok (t : table) (oc : option conflict) (n : nat)
    (place : row -> row) (params : list row) (count : nat) :
  preserves db_ok (insert_loop W t oc n place params count).
Proof.
  intros st H. rewrite insert_loop_run. simpl.
  apply db_ok_with_rows; auto. apply run_rows_ok. apply H.
Qed.

Lemma db_ok_view (d : database) :
  db_ok d -> db_ok (mkDb (areas d) (items d) (periods d) (data d) true).
Proof.
  intros H t. specialize (H t). now destruct t.
Qed.

(** Every reachable database satisfies the constraints of the schema. *)
Lemma reachable_ok (st : state) : reachable W st -> db_ok (db st).
Proof.
  induction 1 as [o|st st' _ IH Hstep].
  - apply db_ok_empty.
  - destruct Hstep.
    + apply insert_non_data_table_keeps; auto using insert_loop_ok, db_ok_view.
    + apply insert_data_table_keeps; auto using insert_loop_ok, db_ok_view.
    + apply create_view_keeps; auto using db_ok_view.
Qed.

(** Rows are never removed: each table of [d'] begins with its rows in [d]. *)
Lemma extends_refl (d : database) : extends d d.
Proof.
  intros t. exists []. now rewrite app_nil_r.
Qed.

Lemma insert_loop_extends (d0 : database) (t : table) (oc : option conflict)
    (n : nat) (place : row -> row) (params : list row) (count : nat) :
  preserves (extends d0) (insert_loop W t oc n place params count).
Proof.
  intros st H u. rewrite insert_loop_run. simpl.
  destruct (H u) as [more Hm].
  destruct (run_rows_extends W (def_of t) oc n place params
              (rows_of (db st) t) count) as [more' Hm'].
  rewrite Hm'.
  destruct t, u; simpl in *;
    try (exists more; exact Hm);
    exists (more ++ more'); rewrite Hm, app_assoc; reflexivity.
Qed.

Lemma extends_view (d0 d : database) :
  extends d0 d -> extends d0 (mkDb (areas d) (items d) (periods d) (data d) true).
Proof.
  intros H t. specialize (H t). now destruct t.
Qed.

Lemma insert_data_table_extends (url table_name : string) (data_cols : list string)
    (separator : string) (st : state) :
  extends (db st) (db (snd (insert_data_table W url table_name data_cols separator st))).
Proof.
  apply (insert_data_table_keeps W (extends (db st))).
  - apply insert_loop_extends.
  - apply extends_refl.
Qed.

Lemma insert_non_data_table_extends (url table_name separator : string) (st : state) :
  extends (db st) (db (snd (insert_non_data_table W url table_name separator st))).
Proof.
  apply (insert_non_data_table_keeps W (extends (db st))).
  - apply insert_loop_extends.
  - apply extends_refl.
Qed.

End SchemaKept.

(** ** The view *)

Section ViewFacts.

Lemma filter_none {A : Type} (f : A -> bool) (l : list A) :
  (forall x, In x l -> f x = false) -> filter f l = [].
Proof.
  induction l as [|a l IH]; simpl; intros H; auto.
  rewrite H by (now left). apply IH. intros x Hx. apply H. now right.
Qed.

(** A key that is unique in a table matches at most one of its rows. *)
Lemma one_match (dim : list row) (key : value) :
  NoDup (map (col 0) dim) ->
  List.length (filter (fun a => sql_eq (col 0 a) key) dim) <= 1.
Proof.
  induction dim as [|a dim IH]; simpl; intros Hnd; [lia|].
  inversion Hnd as [|k ks Hnotin Hnd']; subst.
  destruct (sql_eq (col 0 a) key) eqn:E; [|now apply IH].
  unfold sql_eq in E. apply andb_prop in E as [_ E].
  apply value_eqb_eq in E.
  assert (none : filter (fun a0 => sql_eq (col 0 a0) key) dim = []).
  { apply filter_none.
    intros x Hx. destruct (sql_eq (col 0 x) key) eqn:Ex; auto.
    unfold sql_eq in Ex. apply andb_prop in Ex as [_ Ex].
    apply value_eqb_eq in Ex. exfalso. apply Hnotin.
    rewrite E, <- Ex. now apply in_map. }
  rewrite none. simpl. lia.
Qed.

Lemma left_join_one (dim : list row) (key : value) :
  NoDup (map (col 0) dim) -> List.length (left_join dim key) = 1.
Proof.
  intros Hnd. pose proof (one_match dim key Hnd) as H.
  unfold left_join.
  destruct (filter (fun a => sql_eq (col 0 a) key) dim) as [|x [|y l]];
    simpl in *; auto; lia.
Qed.

Lemma flat_map_singletons {A B : Type} (f : A -> list B) (l : list A) :
  (forall a, In a l -> List.length (f a) = 1) ->
  List.length (flat_map f l) = List.length l.
Proof.
  induction l as [|a l IH]; simpl; intros H; auto.
  rewrite length_app, H, IH by auto. reflexivity.
Qed.

Lemma view_rows_count (d : database) :
  db_ok d -> List.length (view_rows d) = List.length (data d).
Proof.
  intros Hd.
  pose proof (proj1 (proj1 (Hd Areas))) as Ha.
  pose proof (proj1 (proj1 (Hd Items))) as Hi.
  pose proof (proj1 (proj1 (Hd Periods))) as Hp.
  simpl in Ha, Hi, Hp.
  unfold view_rows. apply flat_map_singletons. intros dr _.
  rewrite flat_map_singletons; [now apply left_join_one|]. intros a _.
  rewrite flat_map_singletons; [now apply left_join_one|]. intros i _.
  rewrite length_map. now apply left_join_one.
Qed.

Lemma left_join_none (dim : list row) (key : value) :
  (forall a, In a dim -> sql_eq (col 0 a) key = false) ->
  left_join dim key = [None].
Proof.
  intros H. unfold left_join. now rewrite filter_none.
Qed.

Lemma left_join_nonempty (dim : list row) (key : value) :
  exists m, In m (left_join dim key).
Proof.
  unfold left_join.
  destruct (filter (fun a => sql_eq (col 0 a) key) dim) as [|x l].
  - exists None. now left.
  - exists (Some x). now left.
Qed.

End ViewFacts.

(** C2.  In every state the loaders reach from the created schema,
    [create_view] returns, defines the view and reports as many rows as the
    fact table holds: the view has one row per fact row, and a fact row
    whose area code matches no row of [areas] is in the view with a NULL
    area name. *)
Theorem create_view_keeps_every_fact :
  forall (W : World) (st : state),
    reachable W st ->
    exists st',
      create_view st = (Ok tt, st') /\
      data_view (db st') = true /\
      data (db st') = data (db st) /\
      out st' = out st ++ [Printed (MCreatedView (List.length (data (db st))))] /\
      List.length (view_rows (db st')) = List.length (data (db st')) /\
      forall dr : row,
        In dr (data (db st')) ->
        (forall a, In a (areas (db st')) -> sql_eq (col 0 a) (col 5 dr) = false) ->
        exists i p,
          In [col 1 dr; col 5 dr; VNull; col 6 dr; attr 1 i;
              col 7 dr; col 8 dr; attr 2 p; col 9 dr]
             (view_rows (db st')).
Proof.
  intros W st Hr.
  pose proof (reachable_ok W st Hr) as Hok.
  pose proof (view_rows_count (db st) Hok) as Hcount.
  eexists. split; [reflexivity|].
  cbn [db out snd data_view data areas items periods].
  repeat split.
  - do 4 f_equal. exact Hcount.
  - exact Hcount.
  - intros dr Hdr Hno.
    destruct (left_join_nonempty (items (db st)) (col 6 dr)) as [i Hi].
    destruct (left_join_nonempty (periods (db st)) (col 8 dr)) as [p Hp].
    exists i, p. unfold view_rows.
    apply in_flat_map. exists dr. split; [exact Hdr|].
    apply in_flat_map. exists None. split.
    { cbn [areas]. rewrite left_join_none by exact Hno. now left. }
    apply in_flat_map. exists i. split; [exact Hi|].
    apply in_map_iff. exists p. split; [reflexivity | exact Hp].
Qed.

Lemma create_view_keeps_every_fact_witness :
  reachable sample_world facts_loaded /\
  exists st',
    create_view facts_loaded = (Ok tt, st') /\
    List.length (view_rows (db st')) = List.length (data (db st')).
Proof.
  assert (Hr : reachable sample_world facts_loaded).
  { unfold facts_loaded. eapply reach_step; [apply (reach_created _ [])|].
    apply step_data. }
  split; [exact Hr|].
  destruct (create_view_keeps_every_fact sample_world facts_loaded Hr)
    as (st' & E & _ & _ & _ & Hn & _).
  exists st'. split; assumption.
Defined.

(** The one observation loaded without any area: its view row has a NULL
    area name (and NULL item and period names). *)
Example view_row_without_area :
  view_rows (db (snd (create_view facts_loaded)))
  = [[VText "CUSR0000SA0      "; VText "0000"; VNull; VText "SA0"; VNull;
      VInt 2020; VText "M01"; VNull; VReal 4643245890017674920]].
Proof. vm_compute. reflexivity. Qed.

(** ** The fact table *)

Lemma same_key_clashes (r r' : row) :
  key_not_null r = true -> observation_key r = observation_key r' ->
  clashes [1; 7; 8] r r' = true.
Proof.
  unfold key_not_null, observation_key, clashes, sql_eq. intros Hn Hk.
  injection Hk as E1 E7 E8. simpl. rewrite <- E1, <- E7, <- E8.
  apply andb_prop in Hn as [Hn H8]. apply andb_prop in Hn as [H1 H7].
  now rewrite H1, H7, H8, !value_eqb_refl.
Qed.

Lemma data_unique (d : database) :
  db_ok d -> unique_ok [1; 7; 8] (data d).
Proof.
  intros H. destruct (H Data) as [_ Hu]. simpl in Hu.
  now inversion Hu.
Qed.

(** C3, as stated, fails: two observations without a year, equal in
    series_id and period, are both stored; the UNIQUE constraint does not
    compare NULLs. *)
Lemma observation_key_null_counterexample :
  reachable sample_world no_year_loaded /\
  exists r r',
    nth_error (data (db no_year_loaded)) 0 = Some r /\
    nth_error (data (db no_year_loaded)) 1 = Some r' /\
    observation_key r = observation_key r' /\
    observation_key r = (VText "CUSR0000SA0", VNull, VText "M01").
Proof.
  split.
  - unfold no_year_loaded. eapply reach_step; [apply (reach_created _ [])|].
    apply step_data.
  - exists [VInt 1; VText "CUSR0000SA0"; VText "CU"; VText "S"; VText "R";
            VText "0000"; VText "SA0"; VNull; VText "M01";
            VReal 4643245890017674920; VNull],
           [VInt 2; VText "CUSR0000SA0"; VText "CU"; VText "S"; VText "R";
            VText "0000"; VText "SA0"; VNull; VText "M01";
            VReal 4643245890017674920; VNull].
    split; [vm_compute; reflexivity|].
    split; [vm_compute; reflexivity|].
    split; reflexivity.
Qed.

(** C3, amended.  In every state the loaders reach from the created schema,
    two rows of the fact table that agree on (series_id, year, period), none
    of the three NULL, are one row; and a further [insert_data_table], with
    any arguments, keeps every stored row in place and leaves the table with
    that property, so that an observation already stored is not stored
    twice. *)
Theorem observation_key_unique :
  forall (W : World) (st : state),
    reachable W st ->
    (forall (i j : nat) (r r' : row),
        nth_error (data (db st)) i = Some r ->
        nth_error (data (db st)) j = Some r' ->
        key_not_null r = true ->
        observation_key r = observation_key r' ->
        i = j) /\
    forall (url table_name : string) (data_cols : list string) (separator : string),
      let st' := snd (insert_data_table W url table_name data_cols separator st) in
      (forall (i : nat) (r : row),
          nth_error (data (db st)) i = Some r ->
          nth_error (data (db st')) i = Some r) /\
      (forall (i j : nat) (r r' : row),
          nth_error (data (db st')) i = Some r ->
          nth_error (data (db st')) j = Some r' ->
          key_not_null r = true ->
          observation_key r = observation_key r' ->
          i = j).
Proof.
  intros W st Hr.
  assert (uniq : forall s, reachable W s ->
            forall i j r r',
              nth_error (data (db s)) i = Some r ->
              nth_error (data (db s)) j = Some r' ->
              key_not_null r = true ->
              observation_key r = observation_key r' -> i = j).
  { intros s Hs i j r r' Hi Hj Hn Hk.
    apply (data_unique (db s) (reachable_ok W s Hs) i j r r' Hi Hj).
    now apply same_key_clashes. }
  split; [now apply uniq|].
  intros url table_name data_cols separator st'. split.
  - intros i r Hi.
    destruct (insert_data_table_extends W url table_name data_cols separator st Data)
      as [more Hm].
    simpl in Hm. subst st'. rewrite Hm.
    rewrite nth_error_app1; auto.
    apply nth_error_Some. congruence.
  - apply uniq. eapply reach_step; [exact Hr | apply step_data].
Qed.

Lemma observation_key_unique_witness :
  reachable sample_world facts_loaded /\
  List.length
    (data (db (snd (insert_data_table sample_world "data" "data" update_cols TAB
                      facts_loaded)))) = 1.
Proof.
  assert (Hr : reachable sample_world facts_loaded).
  { unfold facts_loaded. eapply reach_step; [apply (reach_created _ [])|].
    apply step_data. }
  split; [exact Hr|].
  destruct (observation_key_unique sample_world facts_loaded Hr) as [_ Hre].
  destruct (Hre "data" "data" update_cols TAB) as [_ Hu].
  set (rows := data (db (snd (insert_data_table sample_world "data" "data"
                                update_cols TAB facts_loaded)))) in *.
  destruct rows as [|r [|r' rest]] eqn:E.
  - vm_compute in E. discriminate.
  - reflexivity.
  - exfalso.
    assert (H01 : 0 = 1).
    { apply (Hu 0 1 r r'); try reflexivity;
        vm_compute in E; discriminate. }
    discriminate.
Defined.

(** ** Dimension loads *)

(** Run the straight-line part of a loader up to the next case split. *)
Ltac step_prog :=
  cbv beta iota zeta delta
    [insert_non_data_table dimension_load try_except bind read_text_from_url
     print emit ret lift with_conn executemany_insert_or_ignore raise
     data_rows truthy len_first];
  cbn [fst snd db out].

Section DimensionFacts.

Variable W : World.

(** [insert_non_data_table] returns, and does what [dimension_load] says. *)
Lemma insert_non_data_table_eq (url table_name separator : string) (st : state) :
  insert_non_data_table W url table_name separator st
  = (Ok tt,
     mkState (fst (dimension_load W url table_name separator (db st)))
       (out st ++ snd (dimension_load W url table_name separator (db st)))).
Proof.
  step_prog.
  destruct (urlopen W url) as [text|e]; step_prog.
  2: { now rewrite <- !app_assoc. }
  destruct text as [|c text]; step_prog.
  { now rewrite <- !app_assoc. }
  destruct (split_rows separator _) as [[|r0 rest]|e];
    step_prog; try (now rewrite <- !app_assoc).
  destruct (table_of_name table_name) as [t|];
    step_prog; try (now rewrite <- !app_assoc).
  destruct (Nat.eqb (List.length r0) (arity t));
    step_prog; try (now rewrite <- !app_assoc).
  rewrite insert_loop_run. step_prog.
  destruct (run_rows W (def_of t) (Some IGNORE) (List.length r0) (fun p => p)
              (map (map VText) (r0 :: rest)) (rows_of (db st) t) 0)
    as [[n|e] rows'];
    step_prog; now rewrite <- !app_assoc.
Qed.

(** Under INSERT OR IGNORE a table whose key is no rowid either passes a row
    over or appends it. *)
Lemma insert_or_ignore_form (def : table_def) (rows : list row) (p : row) :
  t_rowid def = false ->
  insert_row W def (Some IGNORE) rows p
  = if is_null (col 0 (coerce_row W def p))
       || key_taken rows (col 0 (coerce_row W def p))
       || unique_violated def rows (coerce_row W def p)
    then Skipped
    else Inserted (rows ++ [coerce_row W def p]).
Proof.
  intros Hr. unfold insert_row. rewrite Hr. simpl resolve. simpl on_conflict.
  destruct (col 0 (coerce_row W def p)) eqn:K; simpl is_null; simpl orb; auto;
    destruct (key_taken rows _); simpl; auto;
    now destruct (unique_violated def rows _).
Qed.

Lemma key_taken_app (rows more : list row) (k : value) :
  key_taken (rows ++ more) k = key_taken rows k || key_taken more k.
Proof. apply existsb_app. Qed.

Lemma unique_violated_app (def : table_def) (rows more : list row) (r : row) :
  unique_violated def rows r = true -> unique_violated def (rows ++ more) r = true.
Proof.
  unfold unique_violated. intros H.
  apply existsb_exists in H as (cols & Hc & H).
  apply existsb_exists. exists cols. split; auto.
  rewrite existsb_app, H. reflexivity.
Qed.




(** A batch that went through is the whole batch, row by row. *)
Lemma run_rows_whole (def : table_def) (nv : nat) (params : list row) :
  forall (rows rows' : list row) (c n : nat),
    run_rows W def (Some IGNORE) nv (fun p => p) params rows c = (Ok n, rows') ->
    rows' = insert_or_ignore_all W def params rows.
Proof.
  induction params as [|p rest IH]; intros rows rows' c n H; simpl in *.
  - now injection H.
  - destruct (Nat.eqb (List.length p) nv); [|discriminate].
    destruct (insert_row W def (Some IGNORE) rows p); [| |discriminate];
      eapply IH; eassumption.
Qed.

(** A batch with a row of the wrong width does not go through. *)
Lemma run_rows_bad_width (def : table_def) (oc : option conflict) (nv : nat)
    (place : row -> row) (params : list row) :
  (exists p, In p params /\ List.length p <> nv) ->
  forall (rows : list row) (c : nat),
    exists e rows', run_rows W def oc nv place params rows c = (Raise e, rows').
Proof.
  induction params as [|p rest IH]; intros (q & Hq & Hlen) rows c.
  - destruct Hq.
  - simpl. destruct (Nat.eqb (List.length p) nv) eqn:E; [|eauto].
    destruct Hq as [->|Hq]; [apply Nat.eqb_eq in E; contradiction|].
    destruct (insert_row W def oc rows (place p)); eauto.
Qed.

End DimensionFacts.

Lemma append_empty (s : string) : (s ++ "")%string = s.
Proof. induction s as [|a s IH]; simpl; congruence. Qed.

Lemma append_char (cur : string) (c : ascii) (s : string) :
  ((cur ++ String c "") ++ s)%string = (cur ++ String c s)%string.
Proof. induction cur as [|a cur IH]; simpl; congruence. Qed.

Lemma split_one_line (s : string) :
  no_newline s = true ->
  forall cur : string,
    PyStr.split_scan NL s 0 cur = [(cur ++ s)%string].
Proof.
  induction s as [|c s IH]; intros H cur.
  - simpl. now rewrite append_empty.
  - change (negb (Ascii.eqb (ascii_of_nat 10) c) && no_newline s = true) in H.
    apply andb_prop in H as [Hc Hs]. apply negb_true_iff in Hc.
    change (PyStr.split_scan NL (String c s) 0 cur)
      with (if Ascii.eqb (ascii_of_nat 10) c && PyStr.startswith "" s
            then cur :: PyStr.split_scan NL s (String.length NL - 1) ""
            else PyStr.split_scan NL s 0 (cur ++ String c "")).
    rewrite Hc. cbn [andb]. rewrite IH by assumption.
    now rewrite append_char.
Qed.




(** C6.  A dimension load leaves the database as it was or with the whole
    batch applied under insert-or-ignore, nothing in between; and when a
    data row of the fetched text does not have as many fields as the target
    table has columns, the load ends in an error, which is printed, and the
    database is as it was. *)
Theorem insert_non_data_table_atomic :
  forall (W : World) (url table_name separator : string) (st : state),
    let st' := snd (insert_non_data_table W url table_name separator st) in
    (db st' = db st \/
     exists text rows t,
       urlopen W url = Ok text /\
       data_rows text separator = Ok rows /\
       table_of_name table_name = Some t /\
       db st' = with_rows (db st) t
                  (insert_or_ignore_all W (def_of t) (map (map VText) rows)
                     (rows_of (db st) t))) /\
    forall (text : string) (rows : list (list string)) (t : table),
      urlopen W url = Ok text ->
      text <> EmptyString ->
      data_rows text separator = Ok rows ->
      table_of_name table_name = Some t ->
      (exists r, In r rows /\ List.length r <> arity t) ->
      exists e,
        insert_non_data_table W url table_name separator st
        = (Ok tt, mkState (db st) (out st ++ [Fetch url; Printed (MError e)])).
Proof.
  intros W url table_name separator st st'. subst st'.
  rewrite insert_non_data_table_eq. cbn [snd db]. split.
  - unfold dimension_load.
    destruct (urlopen W url) as [[|c text]|e]; auto.
    destruct (data_rows _ separator) as [[|r0 rest]|e] eqn:Hrows; auto.
    destruct (table_of_name table_name) as [t|]; auto.
    destruct (Nat.eqb (List.length r0) (arity t)); auto.
    destruct (run_rows W (def_of t) (Some IGNORE) (List.length r0) (fun p => p)
                (map (map VText) (r0 :: rest)) (rows_of (db st) t) 0)
      as [[n|e] rows'] eqn:R; auto.
    right. exists (String c text), (r0 :: rest), t.
    repeat split; auto. cbn [fst]. f_equal.
    eapply run_rows_whole. eassumption.
  - intros text rows t Hurl Htext Hrows Ht (r & Hin & Hlen).
    unfold dimension_load. rewrite Hurl.
    destruct text as [|c text]; [contradiction|].
    rewrite Hrows. destruct rows as [|r0 rest]; [destruct Hin|].
    rewrite Ht.
    destruct (Nat.eqb (List.length r0) (arity t)) eqn:E; [|cbn [fst snd]; eauto].
    apply Nat.eqb_eq in E.
    destruct (run_rows_bad_width W (def_of t) (Some IGNORE) (List.length r0)
                (fun p => p) (map (map VText) (r0 :: rest))) with
      (rows := rows_of (db st) t) (c := 0) as (e & rows' & R).
    { exists (map VText r). split; [now apply in_map|].
      rewrite length_map. congruence. }
    rewrite R. cbn [fst snd]. eauto.
Qed.

Lemma insert_non_data_table_atomic_witness :
  urlopen sample_world "short" = Ok short_row_text /\
  (exists r, In r [["0000"; "U.S. city average"; "0"; "T"; "1"];
                   ["A100"; "Northeast"; "1"]]
             /\ List.length r <> arity Areas) /\
  exists e,
    insert_non_data_table sample_world "short" "areas" TAB fresh
    = (Ok tt, mkState empty_db [Fetch "short"; Printed (MError e)]).
Proof.
  assert (Hbad : exists r, In r [["0000"; "U.S. city average"; "0"; "T"; "1"];
                                 ["A100"; "Northeast"; "1"]]
                           /\ List.length r <> arity Areas).
  { exists ["A100"; "Northeast"; "1"]. split; [right; now left | discriminate]. }
  split; [reflexivity|]. split; [exact Hbad|].
  destruct (insert_non_data_table_atomic sample_world "short" "areas" TAB fresh)
    as [_ Herr].
  apply (Herr short_row_text
           [["0000"; "U.S. city average"; "0"; "T"; "1"];
            ["A100"; "Northeast"; "1"]] Areas); auto.
  discriminate.
Defined.

(** C10.  A fetched dimension text of one line, the header, makes
    [insert_non_data_table] return without an exception: the IndexError of
    [rows[0]] is caught and printed, nothing is inserted and the database is
    as it was. *)
Theorem insert_non_data_table_header_only :
  forall (W : World) (url table_name separator : string) (st : state) (text : string),
    urlopen W url = Ok text ->
    text <> EmptyString ->
    no_newline (PyStr.strip text) = true ->
    insert_non_data_table W url table_name separator st
    = (Ok tt, mkState (db st) (out st ++ [Fetch url; Printed (MError IndexError)])).
Proof.
  intros W url table_name separator st text Hurl Htext Hline.
  rewrite insert_non_data_table_eq. unfold dimension_load, data_rows.
  rewrite Hurl. destruct text as [|c text]; [contradiction|].
  rewrite (split_one_line _ Hline). reflexivity.
Qed.

Lemma insert_non_data_table_header_only_witness :
  urlopen sample_world "header" = Ok header_only_text /\
  no_newline (PyStr.strip header_only_text) = true /\
  insert_non_data_table sample_world "header" "areas" TAB fresh
  = (Ok tt, mkState empty_db [Fetch "header"; Printed (MError IndexError)]).
Proof.
  split; [reflexivity|]. split; [vm_compute; reflexivity|].
  apply (insert_non_data_table_header_only sample_world "header" "areas" TAB
           fresh header_only_text).
  - reflexivity.
  - discriminate.
  - vm_compute. reflexivity.
Defined.

(** ** Fact loads *)

Ltac step_fact :=
  cbv beta iota zeta delta
    [insert_data_table fact_load fact_frame try_except bind read_text_from_url
     text_to_df print emit ret lift raise truthy rbind];
  cbn [fst snd db out].

Section FactFacts.

Variable W : World.

(** [to_sql] does what [sql_load] says and prints nothing. *)
Lemma to_sql_eq (df : DataFrame) (name : string) (st : state) :
  to_sql W df name st
  = (fst (sql_load W df name (db st)),
     mkState (snd (sql_load W df name (db st))) (out st)).
Proof.
  unfold to_sql, sql_load.
  destruct (schema_table name) as [t|].
  - destruct (nrows df) eqn:N; [now destruct st|].
    unfold with_conn, bind, raise, ret.
    destruct (known_columns (def_of t) (column_names df)); [|now destruct st].
    rewrite insert_loop_run.
    destruct (run_rows W (def_of t) None (List.length (columns df))
                (place_named (def_of t) (column_names df))
                (map (frame_row df) (seq 0 (S n))) (rows_of (db st) t) 0)
      as [[k|e] rows']; cbn [fst snd db out]; reflexivity.
  - unfold raise, ret. destruct (table_of_name name); now destruct st.
Qed.

(** [insert_data_table] returns, and does what [fact_load] says. *)
Lemma insert_data_table_eq (url table_name : string) (data_cols : list string)
    (separator : string) (st : state) :
  insert_data_table W url table_name data_cols separator st
  = (Ok tt,
     mkState (fst (fact_load W url table_name data_cols separator (db st)))
       (out st ++ snd (fact_load W url table_name data_cols separator (db st)))).
Proof.
  step_fact.
  destruct (urlopen W url) as [[|c text]|e]; step_fact;
    try (now rewrite <- !app_assoc).
  destruct (read_csv W (String c text) separator) as [df0|e0]; step_fact.
  - destruct (get_data_cols (Some (rename_strip df0))) as [d1|e1];
      step_fact; [|now rewrite <- !app_assoc].
    destruct (arrange_data_cols d1 data_cols) as [d2|e2];
      step_fact; [|now rewrite <- !app_assoc].
    rewrite to_sql_eq. step_fact.
    destruct (sql_load W d2 table_name (db st)) as [[u|e3] d'];
      step_fact; [destruct u|]; now rewrite <- ?app_assoc.
  - cbn [get_data_cols]. step_fact. now rewrite <- !app_assoc.
Qed.

End FactFacts.

(** ** update_db *)

Section UpdateFacts.

Variable W : World.

Lemma dimension_load_events (url table_name separator : string) (d : database) :
  exists evs, snd (dimension_load W url table_name separator d) = Fetch url :: evs.
Proof.
  unfold dimension_load.
  destruct (urlopen W url) as [[|c text]|e]; cbn [snd]; eauto.
  destruct (data_rows _ separator) as [[|r0 rest]|e]; cbn [snd]; eauto.
  destruct (table_of_name table_name) as [t|]; cbn [snd]; eauto.
  destruct (Nat.eqb _ _); cbn [snd]; eauto.
  destruct (run_rows _ _ _ _ _ _ _ _) as [[n|e] rows']; cbn [snd]; eauto.
Qed.

Lemma fact_load_events (url table_name : string) (data_cols : list string)
    (separator : string) (d : database) :
  exists evs,
    snd (fact_load W url table_name data_cols separator d) = Fetch url :: evs.
Proof.
  unfold fact_load.
  destruct (urlopen W url) as [[|c text]|e]; cbn [snd]; eauto.
  destruct (fact_frame W _ separator data_cols) as [df|e]; cbn [snd]; eauto.
  destruct (sql_load W df table_name d) as [[u|e] d']; cbn [snd]; eauto.
Qed.

(** With a connection, [update_db] is the five steps in a row: no loader
    ever raises. *)
Lemma update_db_steps (db_file : string) (d0 : database) (st : state) :
  connect W db_file = Some d0 ->
  update_db W db_file st
  = create_view
      (snd (insert_data_table W (bls "cu.data.0.Current") "data" update_cols TAB
         (snd (insert_non_data_table W (bls "cu.item") "items" TAB
            (snd (insert_non_data_table W (bls "cu.period") "periods" TAB
               (snd (insert_non_data_table W (bls "cu.area") "areas" TAB
                  (mkState d0 (out st ++ [Printed MOpened])))))))))).
Proof.
  intros Hc. unfold update_db, create_sqlite_connection. cbv zeta.
  unfold bind at 1. rewrite Hc.
  change ("https://download.bls.gov/pub/time.series/cu/" ++ "cu.area")%string
    with (bls "cu.area").
  change ("https://download.bls.gov/pub/time.series/cu/" ++ "cu.period")%string
    with (bls "cu.period").
  change ("https://download.bls.gov/pub/time.series/cu/" ++ "cu.item")%string
    with (bls "cu.item").
  change ("https://download.bls.gov/pub/time.series/cu/" ++ "cu.data.0.Current")%string
    with (bls "cu.data.0.Current").
  fold update_cols.
  unfold bind.
  rewrite (insert_non_data_table_eq W (bls "cu.area")). cbn [snd].
  rewrite (insert_non_data_table_eq W (bls "cu.period")). cbn [snd].
  rewrite (insert_non_data_table_eq W (bls "cu.item")). cbn [snd].
  rewrite (insert_data_table_eq W (bls "cu.data.0.Current")). cbn [snd].
  reflexivity.
Qed.

End UpdateFacts.

(** C8.  The last statement of insert_tables.py raises NameError for the
    name [os], whatever the environment holds: [os] is no name of the
    module.  Nothing has run by then: no connection is opened, nothing is
    fetched or printed, and [update_db] is not entered. *)
Theorem main_block_name_error :
  forall (W : World) (environ : string -> option string) (st : state),
    existsb (String.eqb "os") module_globals = false /\
    main_block W environ st = (Raise (NameError "os"), st).
Proof.
  intros W environ st. split; reflexivity.
Qed.

(** C7.  In a run of [update_db] with a connection in which the fetch of one
    dimension file fails with [e]: that dimension load returns without an
    exception wherever it runs, having printed the error and that the file
    could not be read; the run gets to a state [s3] whose output holds these
    lines, the fact load runs from it (it asks for the fact file) and
    returns, and the run ends with [create_view] on the state it leaves. *)
Theorem update_db_continues_after_failed_fetch :
  forall (W : World) (db_file : string) (d0 : database) (st : state)
         (u name : string) (e : exn),
    connect W db_file = Some d0 ->
    In (u, name) [(bls "cu.area", "areas"); (bls "cu.period", "periods");
                  (bls "cu.item", "items")] ->
    urlopen W u = Raise e ->
    (forall s : state,
        insert_non_data_table W u name TAB s
        = (Ok tt,
           mkState (db s)
             (out s ++ [Fetch u; Printed (MError e); Printed MUnableDim]))) /\
    exists (s3 s4 : state) (pre post evs : list event),
      out s3 = pre ++ [Fetch u; Printed (MError e); Printed MUnableDim] ++ post /\
      insert_data_table W (bls "cu.data.0.Current") "data" update_cols TAB s3
      = (Ok tt, s4) /\
      out s4 = out s3 ++ Fetch (bls "cu.data.0.Current") :: evs /\
      update_db W db_file st = create_view s4.
Proof.
  intros W db_file d0 st u name e Hc Hin Hu.
  assert (failed : forall n s,
            insert_non_data_table W u n TAB s
            = (Ok tt,
               mkState (db s)
                 (out s ++ [Fetch u; Printed (MError e); Printed MUnableDim]))).
  { intros n s. rewrite insert_non_data_table_eq.
    unfold dimension_load. now rewrite Hu. }
  split; [apply failed|].
  set (s0 := mkState d0 (out st ++ [Printed MOpened])).
  set (s1 := snd (insert_non_data_table W (bls "cu.area") "areas" TAB s0)).
  set (s2 := snd (insert_non_data_table W (bls "cu.period") "periods" TAB s1)).
  set (s3 := snd (insert_non_data_table W (bls "cu.item") "items" TAB s2)).
  set (s4 := snd (insert_data_table W (bls "cu.data.0.Current") "data"
                    update_cols TAB s3)).
  assert (grows : forall url n s,
            exists evs,
              out (snd (insert_non_data_table W url n TAB s))
              = out s ++ Fetch url :: evs).
  { intros url n s. rewrite insert_non_data_table_eq. cbn [snd out].
    destruct (dimension_load_events W url n TAB (db s)) as [evs ->]. eauto. }
  destruct (grows (bls "cu.area") "areas" s0) as [ev1 H1].
  destruct (grows (bls "cu.period") "periods" s1) as [ev2 H2].
  destruct (grows (bls "cu.item") "items" s2) as [ev3 H3].
  fold s1 in H1. fold s2 in H2. fold s3 in H3.
  destruct (fact_load_events W (bls "cu.data.0.Current") "data" update_cols TAB
              (db s3)) as [ev4 H4].
  assert (tail : exists pre post,
            out s3 = pre ++ [Fetch u; Printed (MError e); Printed MUnableDim] ++ post).
  { destruct Hin as [E|[E|[E|[]]]]; injection E as <- <-.
    - exists (out s0), ((Fetch (bls "cu.period") :: ev2) ++ Fetch (bls "cu.item") :: ev3).
      rewrite H3, H2. unfold s1. rewrite failed. cbn [snd out].
      now rewrite <- !app_assoc.
    - exists (out s1), (Fetch (bls "cu.item") :: ev3).
      rewrite H3. unfold s2. rewrite failed. cbn [snd out].
      now rewrite <- !app_assoc.
    - exists (out s2), []. unfold s3. rewrite failed. cbn [snd out].
      reflexivity. }
  destruct tail as (pre & post & Hout).
  exists s3, s4, pre, post, ev4. repeat split.
  - exact Hout.
  - unfold s4. now rewrite insert_data_table_eq.
  - unfold s4. rewrite insert_data_table_eq. cbn [snd out]. now rewrite H4.
  - now apply update_db_steps.
Qed.

Lemma update_db_continues_after_failed_fetch_witness :
  connect sample_world "cpi-u.db" = Some empty_db /\
  urlopen sample_world (bls "cu.area") = Raise URLError /\
  exists (s3 s4 : state) (pre post evs : list event),
    out s3 = pre ++ [Fetch (bls "cu.area"); Printed (MError URLError);
                     Printed MUnableDim] ++ post /\
    insert_data_table sample_world (bls "cu.data.0.Current") "data" update_cols
      TAB s3 = (Ok tt, s4) /\
    out s4 = out s3 ++ Fetch (bls "cu.data.0.Current") :: evs /\
    update_db sample_world "cpi-u.db" fresh = create_view s4.
Proof.
  split; [reflexivity|]. split; [reflexivity|].
  apply (update_db_continues_after_failed_fetch sample_world "cpi-u.db" empty_db
           fresh (bls "cu.area") "areas" URLError).
  - reflexivity.
  - now left.
  - reflexivity.
Defined.

(** ** The frame of the fact load *)

Section ArrangeFacts.















End ArrangeFacts.

Section AppendFacts.

Variable W : World.

Lemma key_free (rows more : list row) (r : row) :
  NoDup (map (col 0) (rows ++ r :: more)) -> key_taken rows (col 0 r) = false.
Proof.
  intros H. destruct (key_taken rows (col 0 r)) eqn:E; auto.
  unfold key_taken in E. apply existsb_exists in E as (x & Hx & Hv).
  apply value_eqb_eq in Hv.
  rewrite map_app in H. simpl in H. apply NoDup_remove_2 in H.
  exfalso. apply H. apply in_or_app. left.
  rewrite <- Hv. now apply in_map.
Qed.



End AppendFacts.




(** * Further properties of the code *)

(** ** get_data_cols and arrange_data_cols at the edges *)

Section DecomposeEdges.

Import PyStr.

Lemma slice_length_any (i j : nat) (s : string) :
  String.length (slice i j s) = Nat.min (j - i) (String.length s - i).
Proof.
  unfold slice. now rewrite take_length, drop_length.
Qed.

Lemma drop_all (n : nat) (s : string) :
  String.length s <= n -> drop n s = EmptyString.
Proof.
  revert s; induction n as [|n IH]; intros [|c s]; simpl; intros H;
    try reflexivity; try lia.
  apply IH. lia.
Qed.

Lemma series_apply_non_string (f : string -> string) (col : list cell) :
  (exists c, In c col /\ forall s, c <> CStr s) ->
  series_apply f col = Raise TypeError.
Proof.
  induction col as [|c col IH]; intros (x & Hin & Hx); [destruct Hin|].
  simpl. destruct c as [| | |s]; try reflexivity.
  destruct Hin as [<-|Hin]; [now elim (Hx s)|].
  rewrite IH; eauto.
Qed.

End DecomposeEdges.

(** X1.  [get_data_cols] validates nothing: on a frame whose [series_id]
    column holds strings of any length it returns, the first four fields are
    always the first 8 characters cut at 2, 3 and 4 (shorter when the series
    id is), and a series id of at most 8 characters gets the empty item
    code. *)
Theorem get_data_cols_short_series_id :
  forall (df : DataFrame) (ids : list cell) (ss : list string),
    index_add1 (index df) = Ok ids ->
    filter (named "series_id") (columns df) = [("series_id", map CStr ss)] ->
    exists data,
      get_data_cols (Some df) = Ok data /\
      forall (i : nat) (s : string),
        nth_error ss i = Some s ->
        exists p se pe a it,
          cell_at data "prefix" i = Some (CStr p) /\
          cell_at data "seasonal" i = Some (CStr se) /\
          cell_at data "periodicity" i = Some (CStr pe) /\
          cell_at data "area_code" i = Some (CStr a) /\
          cell_at data "item_code" i = Some (CStr it) /\
          (p ++ se ++ pe ++ a)%string = PyStr.take 8 s /\
          String.length p = Nat.min 2 (String.length s) /\
          String.length se = Nat.min 1 (String.length s - 2) /\
          String.length pe = Nat.min 1 (String.length s - 3) /\
          String.length a = Nat.min 4 (String.length s - 4) /\
          (String.length s <= 8 -> it = EmptyString).
Proof.
  intros df ids ss Hi Hs.
  exists (decomposed df ids ss). split; [now apply get_data_cols_ok|].
  intros i s Hn.
  destruct (decomposed_cells df ids ss i s Hn) as (Hp & Hse & Hpe & Ha & Hit).
  exists (prefix_of s), (seasonal_of s), (periodicity_of s), (area_code_of s),
    (item_code_of s).
  repeat split; auto.
  - apply fields_tile.
  - unfold prefix_of. rewrite slice_length_any. f_equal. lia.
  - unfold seasonal_of. now rewrite slice_length_any.
  - unfold periodicity_of. now rewrite slice_length_any.
  - unfold area_code_of. now rewrite slice_length_any.
  - intros Hlen. unfold item_code_of. now rewrite drop_all.
Qed.

Lemma get_data_cols_short_series_id_witness :
  index_add1 (index short_id_frame) = Ok [CInt 1] /\
  exists data,
    get_data_cols (Some short_id_frame) = Ok data /\
    forall (i : nat) (s : string),
      nth_error ["CUS"] i = Some s ->
      exists p se pe a it,
        cell_at data "prefix" i = Some (CStr p) /\
        cell_at data "seasonal" i = Some (CStr se) /\
        cell_at data "periodicity" i = Some (CStr pe) /\
        cell_at data "area_code" i = Some (CStr a) /\
        cell_at data "item_code" i = Some (CStr it) /\
        (p ++ se ++ pe ++ a)%string = PyStr.take 8 s /\
        String.length p = Nat.min 2 (String.length s) /\
        String.length se = Nat.min 1 (String.length s - 2) /\
        String.length pe = Nat.min 1 (String.length s - 3) /\
        String.length a = Nat.min 4 (String.length s - 4) /\
        (String.length s <= 8 -> it = EmptyString).
Proof.
  split; [reflexivity|].
  apply (get_data_cols_short_series_id short_id_frame [CInt 1] ["CUS"]);
    reflexivity.
Defined.

(** X2.  Without a [series_id] column [get_data_cols] raises
    [KeyError('series_id')] (the ids have been assigned by then, on the
    frame it was given). *)
Theorem get_data_cols_missing_series_id :
  forall (df : DataFrame) (ids : list cell),
    index_add1 (index df) = Ok ids ->
    has_col "series_id" (columns df) = false ->
    get_data_cols (Some df) = Raise (KeyError "series_id").
Proof.
  intros df ids Hi Hc. unfold get_data_cols. rewrite Hi. simpl rbind.
  unfold assign_apply.
  rewrite filter_setitem_other by discriminate.
  rewrite filter_none; [reflexivity|].
  intros x Hx. destruct (named "series_id" x) eqn:E; auto.
  assert (has_col "series_id" (columns df) = true)
    by (apply existsb_exists; eauto).
  congruence.
Qed.

Lemma get_data_cols_missing_series_id_witness :
  has_col "series_id" (columns no_series_frame) = false /\
  get_data_cols (Some no_series_frame) = Raise (KeyError "series_id").
Proof.
  split; [reflexivity|].
  apply (get_data_cols_missing_series_id no_series_frame [CInt 1]); reflexivity.
Defined.

(** X3.  When a cell of the one [series_id] column is not a string (a
    number, or a missing value), [get_data_cols] raises [TypeError]: the
    slicing lambda of the first derived column fails on it. *)
Theorem get_data_cols_non_string_series_id :
  forall (df : DataFrame) (ids : list cell) (col : list cell),
    index_add1 (index df) = Ok ids ->
    filter (named "series_id") (columns df) = [("series_id", col)] ->
    (exists c, In c col /\ forall s, c <> CStr s) ->
    get_data_cols (Some df) = Raise TypeError.
Proof.
  intros df ids col Hi Hs Hbad.
  assert (E : assign_apply (setitem df "id" ids) "prefix" "series_id" prefix_of
              = Raise TypeError).
  { unfold assign_apply.
    rewrite filter_setitem_other by discriminate. rewrite Hs.
    now rewrite series_apply_non_string. }
  unfold get_data_cols. rewrite Hi. simpl rbind. now rewrite E.
Qed.

Lemma get_data_cols_non_string_series_id_witness :
  (exists c, In c [CStr "CUSR0000SA0"; CInt 12345678] /\ forall s, c <> CStr s) /\
  get_data_cols (Some numeric_id_frame) = Raise TypeError.
Proof.
  assert (Hbad : exists c, In c [CStr "CUSR0000SA0"; CInt 12345678]
                           /\ forall s, c <> CStr s).
  { exists (CInt 12345678). split; [right; now left | discriminate]. }
  split; [exact Hbad|].
  apply (get_data_cols_non_string_series_id numeric_id_frame [CInt 1; CInt 2]
           [CStr "CUSR0000SA0"; CInt 12345678]); auto.
Defined.



(** ** The loaders at the edges *)

Section LoadEdges.

Variable W : World.

Lemma run_rows_count (def : table_def) (oc : option conflict) (nv : nat)
    (place : row -> row) (params : list row) :
  forall (rows rows' : list row) (c n : nat),
    run_rows W def oc nv place params rows c = (Ok n, rows') ->
    List.length rows' + c = List.length rows + n.
Proof.
  induction params as [|p rest IH]; intros rows rows' c n H; simpl in H.
  - injection H as <- <-. lia.
  - destruct (Nat.eqb (List.length p) nv); [|discriminate].
    destruct (insert_row W def oc rows (place p)) as [r1| |e] eqn:E;
      [| |discriminate].
    + apply insert_row_inserted in E as (r' & -> & _).
      apply IH in H. rewrite length_app in H. simpl in H. lia.
    + now apply IH in H.
Qed.

Lemma sql_load_raise (df : DataFrame) (name : string) (d : database) (e : exn) :
  fst (sql_load W df name d) = Raise e -> snd (sql_load W df name d) = d.
Proof.
  unfold sql_load.
  destruct (schema_table name) as [t|]; [|reflexivity].
  destruct (nrows df); [reflexivity|].
  destruct (known_columns _ _); [|reflexivity].
  destruct (run_rows _ _ _ _ _ _ _ _) as [[n0|e0] rows']; [discriminate|reflexivity].
Qed.

Lemma dimension_load_error (url table_name separator : string) (d : database)
    (e : exn) :
  In (Printed (MError e)) (snd (dimension_load W url table_name separator d)) ->
  fst (dimension_load W url table_name separator d) = d.
Proof.
  unfold dimension_load.
  destruct (urlopen W url) as [[|c text]|e0]; auto.
  destruct (data_rows _ separator) as [[|r0 rest]|e0]; auto.
  destruct (table_of_name table_name) as [t|]; auto.
  destruct (Nat.eqb _ _); auto.
  destruct (run_rows _ _ _ _ _ _ _ _) as [[n|e0] rows']; auto.
  cbn [fst snd]. intros [H|[H|[]]]; discriminate.
Qed.

Lemma fact_load_error (url table_name : string) (data_cols : list string)
    (separator : string) (d : database) (e : exn) :
  In (Printed (MError e))
     (snd (fact_load W url table_name data_cols separator d)) ->
  fst (fact_load W url table_name data_cols separator d) = d.
Proof.
  unfold fact_load, fact_frame.
  destruct (urlopen W url) as [[|c text]|e0]; auto.
  destruct (read_csv W (String c text) separator) as [df0|e0];
    [|reflexivity].
  destruct (rbind _ _) as [df|e1]; auto.
  destruct (sql_load W df table_name d) as [[u|e2] d'] eqn:S; cbn [fst snd].
  - intros [H|[]]. discriminate.
  - intros _. pose proof (sql_load_raise df table_name d e2) as R.
    rewrite S in R. now apply R.
Qed.

End LoadEdges.

(** X5.  A load that prints an error has changed nothing: whenever
    [insert_non_data_table] or [insert_data_table] puts out an 'Error: ...'
    line, the database after the call is the database before it (rows
    accepted earlier in the batch are rolled back). *)
Theorem load_error_leaves_database :
  forall (W : World) (url table_name separator : string) (data_cols : list string)
         (st : state) (e : exn),
    (forall evs,
        out (snd (insert_non_data_table W url table_name separator st))
        = out st ++ evs ->
        In (Printed (MError e)) evs ->
        db (snd (insert_non_data_table W url table_name separator st)) = db st) /\
    (forall evs,
        out (snd (insert_data_table W url table_name data_cols separator st))
        = out st ++ evs ->
        In (Printed (MError e)) evs ->
        db (snd (insert_data_table W url table_name data_cols separator st))
        = db st).
Proof.
  intros W url table_name separator data_cols st e. split; intros evs Hout Hin.
  - rewrite insert_non_data_table_eq in *. cbn [snd db out] in *.
    apply app_inv_head in Hout. subst evs.
    now apply dimension_load_error with (e := e).
  - rewrite insert_data_table_eq in *. cbn [snd db out] in *.
    apply app_inv_head in Hout. subst evs.
    now apply fact_load_error with (e := e).
Qed.

Lemma load_error_leaves_database_witness :
  out (snd (insert_non_data_table sample_world "short" "areas" TAB fresh))
  = out fresh ++ [Fetch "short"; Printed (MError ProgrammingError)] /\
  db (snd (insert_non_data_table sample_world "short" "areas" TAB fresh)) = db fresh.
Proof.
  assert (H : out (snd (insert_non_data_table sample_world "short" "areas" TAB fresh))
              = out fresh ++ [Fetch "short"; Printed (MError ProgrammingError)])
    by (vm_compute; reflexivity).
  split; [exact H|].
  destruct (load_error_leaves_database sample_world "short" "areas" TAB
              update_cols fresh ProgrammingError) as [Hdim _].
  apply (Hdim _ H). right. now left.
Defined.

(** X6.  The count a dimension load reports is the growth of its table: when
    the load prints 'Inserted n records to the table.', the table it names
    holds exactly [n] rows more than before (ignored rows are not counted)
    and every other table is as it was. *)
Theorem inserted_count_is_growth :
  forall (W : World) (url table_name separator : string) (st : state) (n : nat),
    out (snd (insert_non_data_table W url table_name separator st))
    = out st ++ [Fetch url; Printed (MInserted n)] ->
    exists t,
      table_of_name table_name = Some t /\
      List.length
        (rows_of (db (snd (insert_non_data_table W url table_name separator st))) t)
      = List.length (rows_of (db st) t) + n /\
      forall u, u <> t ->
        rows_of (db (snd (insert_non_data_table W url table_name separator st))) u
        = rows_of (db st) u.
Proof.
  intros W url table_name separator st n.
  rewrite insert_non_data_table_eq. cbn [snd db out].
  intros Hout. apply app_inv_head in Hout. revert Hout.
  unfold dimension_load.
  destruct (urlopen W url) as [[|c text]|e0]; try discriminate.
  destruct (data_rows _ separator) as [[|r0 rest]|e0]; try discriminate.
  destruct (table_of_name table_name) as [t|]; try discriminate.
  destruct (Nat.eqb _ _); try discriminate.
  destruct (run_rows _ _ _ _ _ _ _ _) as [[m|e0] rows'] eqn:R; try discriminate.
  cbn [fst snd]. intros H. injection H as ->.
  exists t. split; [reflexivity|]. split.
  - rewrite rows_of_with_rows. apply run_rows_count in R. lia.
  - intros u Hu. now apply rows_of_with_rows_other.
Qed.

Lemma inserted_count_is_growth_witness :
  out (snd (insert_non_data_table sample_world "areas" "areas" TAB fresh))
  = out fresh ++ [Fetch "areas"; Printed (MInserted 1)] /\
  exists t,
    table_of_name "areas" = Some t /\
    List.length
      (rows_of (db (snd (insert_non_data_table sample_world "areas" "areas" TAB
                           fresh))) t)
    = List.length (rows_of (db fresh) t) + 1 /\
    forall u, u <> t ->
      rows_of (db (snd (insert_non_data_table sample_world "areas" "areas" TAB
                          fresh))) u
      = rows_of (db fresh) u.
Proof.
  assert (H : out (snd (insert_non_data_table sample_world "areas" "areas" TAB fresh))
              = out fresh ++ [Fetch "areas"; Printed (MInserted 1)])
    by (vm_compute; reflexivity).
  split; [exact H|].
  exact (inserted_count_is_growth sample_world "areas" "areas" TAB fresh 1 H).
Defined.

(** X7.  No loader and no [create_view] removes or changes a stored row:
    after each of them every table begins with the rows it had, in the same
    order. *)
Theorem stored_rows_stay :
  forall (W : World) (url table_name separator : string) (data_cols : list string)
         (st : state),
    extends (db st) (db (snd (insert_non_data_table W url table_name separator st))) /\
    extends (db st)
      (db (snd (insert_data_table W url table_name data_cols separator st))) /\
    extends (db st) (db (snd (create_view st))).
Proof.
  intros W url table_name separator data_cols st. repeat split.
  - apply insert_non_data_table_extends.
  - apply insert_data_table_extends.
  - apply (create_view_keeps (extends (db st))).
    + apply extends_view.
    + apply extends_refl.
Qed.

(** X8.  A fetched text that is empty counts as no text: either loader
    prints that the file could not be read, without an error line, and
    leaves the database as it was. *)
Theorem empty_text_is_unreadable :
  forall (W : World) (url table_name separator : string) (data_cols : list string)
         (st : state),
    urlopen W url = Ok EmptyString ->
    insert_non_data_table W url table_name separator st
    = (Ok tt, mkState (db st) (out st ++ [Fetch url; Printed MUnableDim])) /\
    insert_data_table W url table_name data_cols separator st
    = (Ok tt, mkState (db st) (out st ++ [Fetch url; Printed MUnableData])).
Proof.
  intros W url table_name separator data_cols st Hu. split.
  - rewrite insert_non_data_table_eq. unfold dimension_load. now rewrite Hu.
  - rewrite insert_data_table_eq. unfold fact_load. now rewrite Hu.
Qed.

Lemma empty_text_is_unreadable_witness :
  urlopen empty_world "areas" = Ok EmptyString /\
  insert_non_data_table empty_world "areas" "areas" TAB fresh
  = (Ok tt, mkState empty_db [Fetch "areas"; Printed MUnableDim]) /\
  insert_data_table empty_world "areas" "areas" update_cols TAB fresh
  = (Ok tt, mkState empty_db [Fetch "areas"; Printed MUnableData]).
Proof.
  split; [reflexivity|].
  apply (empty_text_is_unreadable empty_world "areas" "areas" TAB update_cols
           fresh eq_refl).
Defined.

(** X9.  [insert_data_table] does not check what [text_to_df] returns: when
    parsing fails with [e], the error is printed, [get_data_cols] is called
    on [None] all the same, and its AttributeError is printed as a second
    error; the database is as it was. *)
Theorem parse_failure_prints_two_errors :
  forall (W : World) (url table_name separator : string) (data_cols : list string)
         (st : state) (text : string) (e : exn),
    urlopen W url = Ok text ->
    text <> EmptyString ->
    read_csv W text separator = Raise e ->
    insert_data_table W url table_name data_cols separator st
    = (Ok tt,
       mkState (db st)
         (out st ++ [Fetch url; Printed (MError e); Printed (MError AttributeError)])).
Proof.
  intros W url table_name separator data_cols st text e Hu Ht Hp.
  rewrite insert_data_table_eq. unfold fact_load, fact_frame.
  rewrite Hu. destruct text as [|c text]; [contradiction|].
  now rewrite Hp.
Qed.

Lemma parse_failure_prints_two_errors_witness :
  urlopen sample_world "areas" = Ok areas_text /\
  read_csv sample_world areas_text TAB = Raise ParserError /\
  insert_data_table sample_world "areas" "data" update_cols TAB fresh
  = (Ok tt,
     mkState empty_db
       [Fetch "areas"; Printed (MError ParserError);
        Printed (MError AttributeError)]).
Proof.
  split; [reflexivity|]. split; [reflexivity|].
  apply (parse_failure_prints_two_errors sample_world "areas" "data" TAB
           update_cols fresh areas_text ParserError).
  - reflexivity.
  - discriminate.
  - reflexivity.
Defined.

Section KeysLoaded.

Variable W : World.

Lemma run_rows_goes_through (def : table_def) (nv : nat) (params : list row) :
  t_rowid def = false ->
  Forall (fun p => List.length p = nv) params ->
  forall (rows : list row) (c : nat),
    exists n rows',
      run_rows W def (Some IGNORE) nv (fun p => p) params rows c = (Ok n, rows').
Proof.
  intros Hr. induction 1 as [|p rest Hp _ IH]; intros rows c; simpl; eauto.
  rewrite Hp, Nat.eqb_refl.
  rewrite insert_or_ignore_form by assumption.
  destruct (_ || _ || _); apply IH.
Qed.

Lemma run_rows_keys (def : table_def) (nv : nat) (params : list row) :
  t_rowid def = false ->
  t_unique def = [] ->
  forall (rows rows' : list row) (c n : nat),
    run_rows W def (Some IGNORE) nv (fun p => p) params rows c = (Ok n, rows') ->
    forall p : row,
      In p params ->
      col 0 (coerce_row W def p) <> VNull ->
      key_taken rows' (col 0 (coerce_row W def p)) = true.
Proof.
  intros Hr Hu. induction params as [|p0 rest IH];
    intros rows rows' c n H p Hin Hnn; [destruct Hin|].
  simpl in H. destruct (Nat.eqb (List.length p0) nv); [|discriminate].
  rewrite insert_or_ignore_form in H by assumption.
  destruct Hin as [->|Hin].
  - unfold unique_violated in H. rewrite Hu in H. simpl existsb in H.
    rewrite orb_false_r in H.
    destruct (is_null (col 0 (coerce_row W def p))) eqn:N.
    { destruct (col 0 (coerce_row W def p)); try discriminate. now elim Hnn. }
    simpl orb in H.
    destruct (key_taken rows (col 0 (coerce_row W def p))) eqn:K.
    + destruct (run_rows_extends W def (Some IGNORE) nv (fun p => p) rest rows c)
        as [more Hm]. rewrite H in Hm. simpl in Hm. subst rows'.
      rewrite key_taken_app, K. reflexivity.
    + destruct (run_rows_extends W def (Some IGNORE) nv (fun p => p) rest
                  (rows ++ [coerce_row W def p]) (S c)) as [more Hm].
      rewrite H in Hm. simpl in Hm. subst rows'.
      rewrite !key_taken_app. simpl. rewrite value_eqb_refl. simpl.
      now rewrite orb_true_r.
  - destruct (_ || _ || _); eapply IH; eauto.
Qed.

Lemma dimension_key (t : table) (k : string) (r : list string) :
  t <> Data -> col 0 (coerce_row W (def_of t) (map VText (k :: r))) = VText k.
Proof.
  intros Ht. destruct t; try reflexivity. now elim Ht.
Qed.

End KeysLoaded.

(** X10.  What a dimension load puts in can be looked up: when the text is
    fetched, its data rows all have the width of the dimension table and the
    table exists, then after the load the table holds, for every data row of
    the file, a row whose key is the first field of that row. *)
Theorem loaded_keys_are_present :
  forall (W : World) (url table_name separator : string) (st : state)
         (text : string) (rows : list (list string)) (t : table),
    urlopen W url = Ok text ->
    text <> EmptyString ->
    data_rows text separator = Ok rows ->
    table_of_name table_name = Some t ->
    t <> Data ->
    Forall (fun r => List.length r = arity t) rows ->
    forall (k : string) (r : list string),
      In (k :: r) rows ->
      exists stored,
        In stored
          (rows_of (db (snd (insert_non_data_table W url table_name separator st))) t)
        /\ col 0 stored = VText k.
Proof.
  intros W url table_name separator st text rows t Hu Htext Hrows Ht Hdim Hw k r Hin.
  rewrite insert_non_data_table_eq. cbn [snd db].
  unfold dimension_load. rewrite Hu.
  destruct text as [|ch text]; [contradiction|].
  rewrite Hrows. destruct rows as [|r0 rest]; [destruct Hin|].
  rewrite Ht.
  assert (H0 : List.length r0 = arity t) by (now inversion Hw).
  rewrite H0, Nat.eqb_refl.
  assert (Hr : t_rowid (def_of t) = false) by (destruct t; try reflexivity; now elim Hdim).
  assert (Hq : t_unique (def_of t) = []) by (destruct t; try reflexivity; now elim Hdim).
  assert (Hlen : Forall (fun p : row => List.length p = arity t)
                   (map (map VText) (r0 :: rest))).
  { apply Forall_forall. intros p Hp.
    apply in_map_iff in Hp as (x & <- & Hx). rewrite length_map.
    rewrite Forall_forall in Hw. now apply Hw. }
  destruct (run_rows_goes_through W (def_of t) (arity t) _ Hr Hlen
              (rows_of (db st) t) 0) as (n & rows' & R).
  rewrite R. cbn [fst]. rewrite rows_of_with_rows.
  assert (K : key_taken rows' (VText k) = true).
  { rewrite <- (dimension_key W t k r Hdim).
    eapply (run_rows_keys W (def_of t) (arity t) _ Hr Hq _ _ _ _ R).
    - apply in_map_iff. exists (k :: r). split; [reflexivity | exact Hin].
    - rewrite dimension_key by assumption. discriminate. }
  unfold key_taken in K. apply existsb_exists in K as (stored & Hs & Hv).
  apply value_eqb_eq in Hv. eauto.
Qed.

Lemma loaded_keys_are_present_witness :
  data_rows areas_text TAB = Ok [["0000"; "U.S. city average"; "0"; "T"; "1"]] /\
  exists stored,
    In stored
      (rows_of (db (snd (insert_non_data_table sample_world "areas" "areas" TAB
                           fresh))) Areas)
    /\ col 0 stored = VText "0000".
Proof.
  split; [vm_compute; reflexivity|].
  apply (loaded_keys_are_present sample_world "areas" "areas" TAB fresh
           areas_text [["0000"; "U.S. city average"; "0"; "T"; "1"]] Areas)
    with (r := ["U.S. city average"; "0"; "T"; "1"]).
  - reflexivity.
  - discriminate.
  - vm_compute. reflexivity.
  - reflexivity.
  - discriminate.
  - repeat constructor.
  - now left.
Defined.

(** ** What the fact table stores *)

Section StoredRows.

Variable W : World.










End StoredRows.



Section ReloadFacts.

Variable W : World.

Lemma int_key_insert (def : table_def) (oc : option conflict) (rows : list row)
    (p : row) :
  int_key (coerce_row W def p) = true ->
  insert_row W def oc rows p
  = if key_taken rows (col 0 (coerce_row W def p))
    then on_conflict (resolve oc (t_pk_conflict def))
    else if unique_violated def rows (coerce_row W def p)
         then on_conflict (resolve oc ABORT)
         else Inserted (rows ++ [coerce_row W def p]).
Proof.
  unfold int_key, insert_row. intros H.
  destruct (col 0 (coerce_row W def p)) eqn:K; try discriminate.
  reflexivity.
Qed.

(** A fact batch with integer ids that went through goes through again
    without a change: every id is taken by then. *)
Lemma run_rows_again_ids (def : table_def) (nv : nat) (place : row -> row)
    (params : list row) :
  t_pk_conflict def = IGNORE ->
  Forall (fun r => int_key r = true)
    (map (fun p => coerce_row W def (place p)) params) ->
  forall (rows0 rows1 : list row) (c n : nat),
    run_rows W def None nv place params rows0 c = (Ok n, rows1) ->
    forall (more : list row) (c' : nat),
      run_rows W def None nv place params (rows1 ++ more) c'
      = (Ok c', rows1 ++ more).
Proof.
  intros Hpk. induction params as [|p rest IH];
    intros Hint rows0 rows1 c n H more c'; [reflexivity|].
  simpl in Hint. inversion Hint as [|? ? Hk Hrest]; subst.
  simpl in *. destruct (Nat.eqb (List.length p) nv); [|discriminate].
  rewrite int_key_insert in * by assumption.
  rewrite Hpk in *. simpl resolve in *. simpl on_conflict in *.
  destruct (key_taken rows0 (col 0 (coerce_row W def (place p)))) eqn:K.
  - destruct (run_rows_extends W def None nv place rest rows0 c) as [m1 Hm].
    rewrite H in Hm. simpl in Hm. subst rows1.
    rewrite !key_taken_app, K. simpl. eapply IH; eauto.
  - destruct (unique_violated def rows0 (coerce_row W def (place p)));
      [discriminate|].
    destruct (run_rows_extends W def None nv place rest
                (rows0 ++ [coerce_row W def (place p)]) (S c)) as [m1 Hm].
    rewrite H in Hm. simpl in Hm. subst rows1.
    assert (T : key_taken (((rows0 ++ [coerce_row W def (place p)]) ++ m1) ++ more)
                  (col 0 (coerce_row W def (place p))) = true).
    { rewrite !key_taken_app. simpl. rewrite value_eqb_refl. simpl.
      now rewrite orb_true_r. }
    rewrite T. eapply IH; eauto.
Qed.

End ReloadFacts.

(** X12.  Loading the same fact file again changes nothing: when the frame
    built from the fetched text gives every row an integer id (the [id]
    column of [get_data_cols]), a second [insert_data_table] into [data]
    leaves the database exactly as the first one left it; the rows are
    passed over on their ids, or the batch fails again as it did before. *)
Theorem insert_data_table_reload_changes_nothing :
  forall (W : World) (url : string) (data_cols : list string) (separator : string)
         (st : state) (text : string) (frame : DataFrame),
    urlopen W url = Ok text ->
    fact_frame W text separator data_cols = Ok frame ->
    Forall (fun r => int_key r = true) (offered W frame) ->
    let once := snd (insert_data_table W url "data" data_cols separator st) in
    db (snd (insert_data_table W url "data" data_cols separator once)) = db once.
Proof.
  intros W url data_cols separator st text frame Hu Hf Hint once. subst once.
  rewrite !insert_data_table_eq. cbn [snd db].
  unfold fact_load. rewrite Hu.
  destruct text as [|ch text]; [reflexivity|].
  rewrite Hf.
  assert (Again : forall d,
            snd (sql_load W frame "data" (snd (sql_load W frame "data" d)))
            = snd (sql_load W frame "data" d)).
  { intros d. unfold sql_load.
    cbn [schema_table String.eqb Ascii.eqb Bool.eqb def_of].
    destruct (nrows frame) as [|m] eqn:Hm; [reflexivity|].
    destruct (known_columns create_data_query (column_names frame));
      [|reflexivity].
    destruct (run_rows W create_data_query None (List.length (columns frame))
                (place_named create_data_query (column_names frame))
                (map (frame_row frame) (seq 0 (S m))) (rows_of d Data) 0)
      as [[k|e] rows1] eqn:R; cbn [snd].
    - rewrite rows_of_with_rows.
      pose proof (run_rows_again_ids W create_data_query
                    (List.length (columns frame))
                    (place_named create_data_query (column_names frame))
                    (map (frame_row frame) (seq 0 (S m))) eq_refl) as A.
      rewrite <- Hm in A at 1. unfold offered in Hint.
      rewrite map_map in A. specialize (A Hint _ _ _ _ R [] 0).
      rewrite app_nil_r in A. rewrite A. cbn [snd].
      apply with_rows_twice.
    - now rewrite R. }
  specialize (Again (db st)).
  destruct (sql_load W frame "data" (db st)) as [[u|e] d1] eqn:S1; cbn [fst snd] in *;
    destruct (sql_load W frame "data" d1) as [[u2|e2] d2]; cbn [fst snd] in *;
    exact Again.
Qed.

Lemma insert_data_table_reload_changes_nothing_witness :
  fact_frame sample_world data_text TAB update_cols
  = Ok (arranged (decomposed (rename_strip one_row_frame) (range_ids 1)
                    ["CUSR0000SA0      "]) update_cols) /\
  db (snd (insert_data_table sample_world "data" "data" update_cols TAB facts_loaded))
  = db facts_loaded.
Proof.
  assert (Hf : fact_frame sample_world data_text TAB update_cols
               = Ok (arranged (decomposed (rename_strip one_row_frame) (range_ids 1)
                                 ["CUSR0000SA0      "]) update_cols))
    by (vm_compute; reflexivity).
  split; [exact Hf|].
  apply (insert_data_table_reload_changes_nothing sample_world "data" update_cols
           TAB fresh data_text _ eq_refl Hf).
  vm_compute. repeat constructor.
Defined.

(** ** The view in any database *)

Section ViewAny.

Lemma left_join_some (dim : list row) (key : value) :
  1 <= List.length (left_join dim key).
Proof.
  unfold left_join.
  destruct (filter (fun a => sql_eq (col 0 a) key) dim); simpl; lia.
Qed.

Lemma flat_map_at_least {A B : Type} (f : A -> list B) (l : list A) :
  (forall a, 1 <= List.length (f a)) ->
  List.length l <= List.length (flat_map f l).
Proof.
  intros H. induction l as [|a l IH]; simpl; [lia|].
  rewrite length_app. specialize (H a). lia.
Qed.

Lemma find_is_first {A : Type} (f : A -> bool) (l : list A) :
  find f l = hd_error (filter f l).
Proof.
  induction l as [|a l IH]; simpl; auto. now destruct (f a).
Qed.

(** With unique keys a left join is the lookup. *)
Lemma left_join_lookup (dim : list row) (key : value) :
  NoDup (map (col 0) dim) -> left_join dim key = [lookup dim key].
Proof.
  intros Hnd. pose proof (one_match dim key Hnd) as H.
  unfold left_join, lookup. rewrite find_is_first.
  destruct (filter (fun a => sql_eq (col 0 a) key) dim) as [|x [|y l]];
    simpl in *; auto; lia.
Qed.

Lemma flat_map_single {A B : Type} (g : A -> B) (l : list A) :
  flat_map (fun a => [g a]) l = map g l.
Proof.
  induction l as [|a l IH]; simpl; congruence.
Qed.

Lemma view_rows_map (d : database) :
  db_ok d -> view_rows d = map (view_row d) (data d).
Proof.
  intros Hd.
  pose proof (proj1 (proj1 (Hd Areas))) as Ha.
  pose proof (proj1 (proj1 (Hd Items))) as Hi.
  pose proof (proj1 (proj1 (Hd Periods))) as Hp.
  simpl in Ha, Hi, Hp.
  unfold view_rows. rewrite <- flat_map_single.
  apply flat_map_ext. intros dr.
  rewrite (left_join_lookup _ _ Ha), (left_join_lookup _ _ Hi),
    (left_join_lookup _ _ Hp).
  reflexivity.
Qed.

End ViewAny.

(** X13.  The left joins of [data_view] drop no fact row, whatever the
    tables hold (also with dimension keys that match several times): the
    view has at least as many rows as the fact table, and every fact row is
    in it with its own series id, codes, year, period and value. *)
Theorem view_drops_no_fact :
  forall d : database,
    List.length (data d) <= List.length (view_rows d) /\
    forall dr : row,
      In dr (data d) ->
      exists a i p,
        In [col 1 dr; col 5 dr; attr 1 a; col 6 dr; attr 1 i;
            col 7 dr; col 8 dr; attr 2 p; col 9 dr]
           (view_rows d).
Proof.
  intros d. split.
  - unfold view_rows. apply flat_map_at_least. intros dr.
    pose proof (left_join_some (areas d) (col 5 dr)) as Ha.
    destruct (left_join (areas d) (col 5 dr)) as [|a la]; simpl in *; [lia|].
    rewrite length_app.
    pose proof (left_join_some (items d) (col 6 dr)) as Hi.
    destruct (left_join (items d) (col 6 dr)) as [|i li]; simpl in *; [lia|].
    rewrite length_app, length_map.
    pose proof (left_join_some (periods d) (col 8 dr)). lia.
  - intros dr Hdr.
    destruct (left_join_nonempty (areas d) (col 5 dr)) as [a Ha].
    destruct (left_join_nonempty (items d) (col 6 dr)) as [i Hi].
    destruct (left_join_nonempty (periods d) (col 8 dr)) as [p Hp].
    exists a, i, p. unfold view_rows.
    apply in_flat_map. exists dr. split; [exact Hdr|].
    apply in_flat_map. exists a. split; [exact Ha|].
    apply in_flat_map. exists i. split; [exact Hi|].
    apply in_map_iff. exists p. split; [reflexivity | exact Hp].
Qed.

(** X14.  In every state the loaders reach from the created schema the view
    is the fact table row by row, in table order: each fact row with the
    area, item and period names of the one dimension row its code matches,
    and NULL where none matches. *)
Theorem view_is_fact_table_with_names :
  forall (W : World) (st : state),
    reachable W st ->
    view_rows (db st) = map (view_row (db st)) (data (db st)).
Proof.
  intros W st Hr. apply view_rows_map. now apply (reachable_ok W).
Qed.

Lemma view_is_fact_table_with_names_witness :
  reachable sample_world facts_loaded /\
  view_rows (db facts_loaded) = map (view_row (db facts_loaded)) (data (db facts_loaded)).
Proof.
  assert (Hr : reachable sample_world facts_loaded).
  { unfold facts_loaded. eapply reach_step; [apply (reach_created _ [])|].
    apply step_data. }
  split; [exact Hr|].
  exact (view_is_fact_table_with_names sample_world facts_loaded Hr).
Defined.

(** ** Whole runs of update_db *)

Section RunFacts.

Variable W : World.

Lemma fetches_app (a b : list event) : fetches (a ++ b) = fetches a ++ fetches b.
Proof. unfold fetches. apply flat_map_app. Qed.

Lemma dimension_load_fetches (url table_name separator : string) (d : database) :
  fetches (snd (dimension_load W url table_name separator d)) = [url].
Proof.
  unfold dimension_load.
  destruct (urlopen W url) as [[|c text]|e]; auto.
  destruct (data_rows _ separator) as [[|r0 rest]|e]; auto.
  destruct (table_of_name table_name) as [t|]; auto.
  destruct (Nat.eqb _ _); auto.
  destruct (run_rows _ _ _ _ _ _ _ _) as [[n|e] rows']; auto.
Qed.

Lemma fact_load_fetches (url table_name : string) (data_cols : list string)
    (separator : string) (d : database) :
  fetches (snd (fact_load W url table_name data_cols separator d)) = [url].
Proof.
  unfold fact_load.
  destruct (urlopen W url) as [[|c text]|e]; auto.
  destruct (read_csv W (String c text) separator) as [df0|e0];
    destruct (fact_frame W _ separator data_cols) as [df|e]; auto;
    destruct (sql_load W df table_name d) as [[u|e] d']; auto.
Qed.

(** A run with a connection, step by step: the state before the view is
    built, what was put out, and what the run keeps. *)
Lemma update_db_run (db_file : string) (d0 : database) (st : state) :
  connect W db_file = Some d0 ->
  exists (s4 : state) (evs : list event),
    update_db W db_file st
    = (Ok tt,
       mkState (mkDb (areas (db s4)) (items (db s4)) (periods (db s4))
                  (data (db s4)) true)
         (out st ++ evs ++ [Printed (MCreatedView (List.length (view_rows (db s4))))]))
    /\ fetches evs
       = [bls "cu.area"; bls "cu.period"; bls "cu.item"; bls "cu.data.0.Current"]
    /\ forall P : database -> Prop,
         (forall t oc n place params count,
             preserves P (insert_loop W t oc n place params count)) ->
         P d0 -> P (db s4).
Proof.
  intros Hc. rewrite (update_db_steps W db_file d0 st Hc).
  set (s0 := mkState d0 (out st ++ [Printed MOpened])).
  set (s1 := snd (insert_non_data_table W (bls "cu.area") "areas" TAB s0)).
  set (s2 := snd (insert_non_data_table W (bls "cu.period") "periods" TAB s1)).
  set (s3 := snd (insert_non_data_table W (bls "cu.item") "items" TAB s2)).
  set (s4 := snd (insert_data_table W (bls "cu.data.0.Current") "data"
                    update_cols TAB s3)).
  exists s4.
  exists (Printed MOpened
          :: snd (dimension_load W (bls "cu.area") "areas" TAB (db s0))
          ++ snd (dimension_load W (bls "cu.period") "periods" TAB (db s1))
          ++ snd (dimension_load W (bls "cu.item") "items" TAB (db s2))
          ++ snd (fact_load W (bls "cu.data.0.Current") "data" update_cols TAB
                    (db s3))).
  split; [|split].
  - unfold create_view, with_conn, bind, define_view, count_view, print, emit.
    cbn [fst snd db out]. do 2 f_equal.
    unfold s4. rewrite insert_data_table_eq. cbn [snd out].
    unfold s3. rewrite insert_non_data_table_eq. cbn [snd out db].
    unfold s2. rewrite insert_non_data_table_eq. cbn [snd out db].
    unfold s1. rewrite insert_non_data_table_eq. cbn [snd out db].
    unfold s0. cbn [out db].
    rewrite <- ?app_assoc. cbn [app]. rewrite <- ?app_assoc. reflexivity.
  - change (Printed MOpened :: ?l) with ([Printed MOpened] ++ l).
    cbn [fetches flat_map app].
    fold (fetches
            (snd (dimension_load W (bls "cu.area") "areas" TAB (db s0)) ++
             snd (dimension_load W (bls "cu.period") "periods" TAB (db s1)) ++
             snd (dimension_load W (bls "cu.item") "items" TAB (db s2)) ++
             snd (fact_load W (bls "cu.data.0.Current") "data" update_cols TAB
                    (db s3)))).
    rewrite !fetches_app, !dimension_load_fetches, fact_load_fetches.
    reflexivity.
  - intros P Hloop H0.
    apply (insert_data_table_keeps W P Hloop).
    apply (insert_non_data_table_keeps W P Hloop).
    apply (insert_non_data_table_keeps W P Hloop).
    apply (insert_non_data_table_keeps W P Hloop).
    exact H0.
Qed.

End RunFacts.


(** X16.  A run of [update_db] on a database that satisfies the
    constraints of the schema returns normally and leaves a database that
    still satisfies them and still holds every row it held, with the view
    defined; the last line printed reports as many records as the fact
    table then has rows. *)
Theorem update_db_keeps_schema_and_reports_facts :
  forall (W : World) (db_file : string) (d0 : database) (st : state),
    connect W db_file = Some d0 ->
    db_ok d0 ->
    exists (st' : state) (evs : list event),
      update_db W db_file st = (Ok tt, st') /\
      db_ok (db st') /\
      extends d0 (db st') /\
      data_view (db st') = true /\
      out st'
      = out st ++ evs ++ [Printed (MCreatedView (List.length (data (db st'))))].
Proof.
  intros W db_file d0 st Hc Hok.
  destruct (update_db_run W db_file d0 st Hc) as (s4 & evs & E & _ & Hkeep).
  assert (Hok4 : db_ok (db s4))
    by (apply Hkeep; [apply insert_loop_ok | exact Hok]).
  assert (Hext : extends d0 (db s4))
    by (apply Hkeep; [apply insert_loop_extends | apply extends_refl]).
  eexists. exists evs. split; [exact E|]. cbn [db out data data_view].
  split; [now apply db_ok_view|].
  split; [now apply extends_view|].
  split; [reflexivity|].
  now rewrite (view_rows_count (db s4) Hok4).
Qed.

Lemma update_db_keeps_schema_and_reports_facts_witness :
  connect sample_world "cpi-u.db" = Some empty_db /\
  db_ok empty_db /\
  exists (st' : state) (evs : list event),
    update_db sample_world "cpi-u.db" fresh = (Ok tt, st') /\
    db_ok (db st') /\
    extends empty_db (db st') /\
    data_view (db st') = true /\
    out st'
    = out fresh ++ evs ++ [Printed (MCreatedView (List.length (data (db st'))))].
Proof.
  split; [reflexivity|]. split; [apply db_ok_empty|].
  apply (update_db_keeps_schema_and_reports_facts sample_world "cpi-u.db"
           empty_db fresh eq_refl db_ok_empty).
Defined.

(** ** Keys in reachable states *)

Section KeyFacts.

Variable W : World.

Lemma insert_row_rowid_int (def : table_def) (oc : option conflict)
    (rows rows' : list row) (r : row) :
  t_rowid def = true ->
  insert_row W def oc rows r = Inserted rows' ->
  exists r', rows' = rows ++ [r'] /\ int_key r' = true.
Proof.
  unfold insert_row. intros Hr. rewrite Hr.
  assert (never : forall c, on_conflict c <> Inserted rows')
    by (intros []; discriminate).
  assert (checked : forall x : row,
            int_key x = true ->
            (if key_taken rows (col 0 x)
             then on_conflict (resolve oc (t_pk_conflict def))
             else if unique_violated def rows x
                  then on_conflict (resolve oc ABORT)
                  else Inserted (rows ++ [x])) = Inserted rows' ->
            exists r', rows' = rows ++ [r'] /\ int_key r' = true).
  { intros x Hx H.
    destruct (key_taken rows (col 0 x)); [now apply never in H|].
    destruct (unique_violated def rows x); [now apply never in H|].
    injection H as <-. now exists x. }
  destruct (col 0 (coerce_row W def r)) eqn:K; try discriminate.
  - apply checked. reflexivity.
  - intros H. apply (checked (coerce_row W def r)).
    + unfold int_key. now rewrite K.
    + now rewrite K.
Qed.

Lemma run_rows_int_keys (def : table_def) (oc : option conflict) (nv : nat)
    (place : row -> row) (params : list row) :
  t_rowid def = true ->
  forall (rows : list row) (c : nat),
    Forall (fun r => int_key r = true) rows ->
    Forall (fun r => int_key r = true)
      (snd (run_rows W def oc nv place params rows c)).
Proof.
  intros Hr. induction params as [|p rest IH]; intros rows c H; simpl; auto.
  destruct (Nat.eqb (List.length p) nv); auto.
  destruct (insert_row W def oc rows (place p)) eqn:E; auto.
  apply insert_row_rowid_int in E as (r' & -> & Hk); auto.
  apply IH. apply Forall_app. split; auto.
Qed.

Lemma insert_loop_int_ids (t : table) (oc : option conflict) (n : nat)
    (place : row -> row) (params : list row) (count : nat) :
  preserves (fun d => Forall (fun r => int_key r = true) (data d))
    (insert_loop W t oc n place params count).
Proof.
  intros st H. rewrite insert_loop_run. cbn [snd db].
  destruct t; try exact H.
  cbn [with_rows data]. now apply run_rows_int_keys.
Qed.

Lemma reachable_int_ids (st : state) :
  reachable W st -> Forall (fun r => int_key r = true) (data (db st)).
Proof.
  induction 1 as [o|st st' _ IH Hstep].
  - constructor.
  - destruct Hstep.
    + apply (insert_non_data_table_keeps W _ insert_loop_int_ids); auto.
    + apply (insert_data_table_keeps W _ insert_loop_int_ids); auto.
    + exact IH.
Qed.

End KeyFacts.

(** X17.  In every state the loaders reach from the created schema, each of
    the four tables has primary keys that are not NULL and pairwise
    different, and every id of the fact table is an integer. *)
Theorem primary_keys_unique :
  forall (W : World) (st : state),
    reachable W st ->
    (forall (t : table) (i j : nat) (r r' : row),
        nth_error (rows_of (db st) t) i = Some r ->
        nth_error (rows_of (db st) t) j = Some r' ->
        col 0 r = col 0 r' -> i = j) /\
    (forall (t : table) (r : row),
        In r (rows_of (db st) t) -> col 0 r <> VNull) /\
    (forall r : row, In r (data (db st)) -> exists z, col 0 r = VInt z).
Proof.
  intros W st Hr. pose proof (reachable_ok W st Hr) as Hok.
  split; [|split].
  - intros t i j r r' Hi Hj Hk.
    destruct (Hok t) as [[Hnd _] _].
    apply (proj1 (NoDup_nth_error _) Hnd).
    + rewrite length_map. apply nth_error_Some. congruence.
    + rewrite !nth_error_map, Hi, Hj. simpl. now rewrite Hk.
  - intros t r Hin. destruct (Hok t) as [[_ Hnn] _].
    rewrite Forall_forall in Hnn. now apply Hnn.
  - intros r Hin. pose proof (reachable_int_ids W st Hr) as Hint.
    rewrite Forall_forall in Hint. specialize (Hint r Hin).
    unfold int_key in Hint. destruct (col 0 r); try discriminate. eauto.
Qed.

Lemma primary_keys_unique_witness :
  reachable sample_world facts_loaded /\
  forall r : row, In r (data (db facts_loaded)) -> exists z, col 0 r = VInt z.
Proof.
  assert (Hr : reachable sample_world facts_loaded).
  { unfold facts_loaded. eapply reach_step; [apply (reach_created _ [])|].
    apply step_data. }
  split; [exact Hr|].
  exact (proj2 (proj2 (primary_keys_unique sample_world facts_loaded Hr))).
Defined.

(** The observation of area 0000 with the area loaded: the view row carries
    the area name, and NULL for the item and period names. *)
Example view_row_with_area :
  view_rows (db all_loaded)
  = [[VText "CUSR0000SA0      "; VText "0000"; VText "U.S. city average";
      VText "SA0"; VNull; VInt 2020; VText "M01"; VNull;
      VReal 4643245890017674920]].
Proof. vm_compute. reflexivity. Qed.

(** ** create_db.py *)





(** ** example_use.py *)

Section ExampleFacts.

Lemma filter_map_commute {A B : Type} (f : B -> bool) (g : A -> B) (l : list A) :
  filter f (map g l) = map g (filter (fun a => f (g a)) l).
Proof.
  induction l as [|a l IH]; simpl; auto.
  destruct (f (g a)); simpl; now rewrite IH.
Qed.

Lemma example_query_count (d : database) :
  db_ok d ->
  List.length (ExampleUse.example_query d)
  = List.length (filter ExampleUse.us_all_items (data d)).
Proof.
  intros Hd. unfold ExampleUse.example_query.
  rewrite (view_rows_map d Hd), filter_map_commute, length_map.
  reflexivity.
Qed.

End ExampleFacts.

(** X20.  On a database that satisfies the constraints of the schema and
    has the view, [example_use.main] reports as many records as the fact
    table has rows of area code '0000' and item code 'SA0': the joins add
    no row and drop none.  On a database without the view the query fails
    and the failure is not caught. *)
Theorem example_main_counts_facts :
  forall (W : World) (db_file : string) (d : database),
    connect W db_file = Some d ->
    (db_ok d -> data_view d = true ->
     ExampleUse.main W db_file
     = ExampleUse.Queried
         (List.length (filter ExampleUse.us_all_items (data d)))) /\
    (data_view d = false ->
     ExampleUse.main W db_file = ExampleUse.Uncaught ExampleUse.DatabaseError).
Proof.
  intros W db_file d Hc. unfold ExampleUse.main. rewrite Hc. split.
  - intros Hok Hv. rewrite Hv. f_equal. now apply example_query_count.
  - intros Hv. now rewrite Hv.
Qed.

Lemma example_main_counts_facts_witness :
  connect loaded_world "cpi-u.db" = Some (db all_loaded) /\
  db_ok (db all_loaded) /\
  ExampleUse.main loaded_world "cpi-u.db" = ExampleUse.Queried 1 /\
  ExampleUse.main sample_world "cpi-u.db"
  = ExampleUse.Uncaught ExampleUse.DatabaseError.
Proof.
  assert (Hok : db_ok (db all_loaded)).
  { apply (reachable_ok sample_world). unfold all_loaded.
    eapply reach_step; [|apply step_view].
    eapply reach_step; [|apply step_data].
    eapply reach_step; [apply (reach_created _ [])|apply step_dimension]. }
  split; [reflexivity|]. split; [exact Hok|]. split.
  - destruct (example_main_counts_facts loaded_world "cpi-u.db" (db all_loaded)
                eq_refl) as [Hq _].
    rewrite (Hq Hok eq_refl). reflexivity.
  - destruct (example_main_counts_facts sample_world "cpi-u.db" empty_db eq_refl)
      as [_ Hn].
    apply Hn. reflexivity.
Defined.

(** X21.  After a run of [update_db] on a database that satisfies the
    constraints of the schema, [example_use.main] on the database the run
    left does not fail: it reports the number of fact rows of area '0000'
    and item 'SA0' that the database holds. *)
Theorem example_main_after_update_db :
  forall (W : World) (db_file : string) (d0 : database) (st : state)
         (W' : World) (db_file' : string),
    connect W db_file = Some d0 ->
    db_ok d0 ->
    connect W' db_file' = Some (db (snd (update_db W db_file st))) ->
    ExampleUse.main W' db_file'
    = ExampleUse.Queried
        (List.length
           (filter ExampleUse.us_all_items
              (data (db (snd (update_db W db_file st)))))).
Proof.
  intros W db_file d0 st W' db_file' Hc Hok Hc'.
  destruct (update_db_keeps_schema_and_reports_facts W db_file d0 st Hc Hok)
    as (st' & evs & E & Hok' & _ & Hv & _).
  rewrite E in *. cbn [snd] in *.
  destruct (example_main_counts_facts W' db_file' (db st') Hc') as [Hq _].
  now apply Hq.
Qed.

Lemma example_main_after_update_db_witness :
  connect sample_world "cpi-u.db" = Some empty_db /\
  db_ok empty_db /\
  ExampleUse.main updated_world "cpi-u.db" = ExampleUse.Queried 0.
Proof.
  split; [reflexivity|]. split; [apply db_ok_empty|].
  rewrite (example_main_after_update_db sample_world "cpi-u.db" empty_db fresh
             updated_world "cpi-u.db" eq_refl db_ok_empty eq_refl).
  vm_compute. reflexivity.
Defined.

(** ** Parsing *)

Section ParseFacts.

Import PyStr.
Local Open Scope string_scope.

Lemma lstrip_clean (s : string) : clean_start s = true -> lstrip s = s.
Proof.
  destruct s as [|c s]; simpl; auto.
  intros H. now destruct (isspace c).
Qed.

Lemma rstrip_clean (s : string) : clean_end s = true -> rstrip s = s.
Proof.
  induction s as [|c s IH]; auto.
  destruct s as [|d s].
  - simpl. intros H. now destruct (isspace c).
  - intros H. change (clean_end (String d s) = true) in H.
    change (rstrip (String c (String d s)))
      with (match rstrip (String d s) with
            | EmptyString => if isspace c then EmptyString else String c EmptyString
            | String x r => String c (String x r)
            end).
    now rewrite (IH H).
Qed.

Lemma strip_clean (s : string) :
  clean_start (strip s) = true /\ clean_end (strip s) = true.
Proof.
  destruct (strip_spec s) as (l & r & _ & _ & _ & Hb & He). auto.
Qed.

Lemma strip_strip (s : string) : strip (strip s) = strip s.
Proof.
  destruct (strip_clean s) as [Hb He].
  unfold strip at 1. rewrite (lstrip_clean _ Hb). now apply rstrip_clean.
Qed.

Lemma concat_cons (sep x : string) (l : list string) :
  l <> [] -> String.concat sep (x :: l) = x ++ sep ++ String.concat sep l.
Proof.
  destruct l; [congruence | reflexivity].
Qed.

Lemma split_scan_nonempty (sep s : string) (k : nat) (cur : string) :
  split_scan sep s k cur <> [].
Proof.
  revert k cur. induction s as [|c s IH]; intros k cur; simpl; [discriminate|].
  destruct k; [|apply IH].
  destruct (startswith sep (String c s)); [discriminate | apply IH].
Qed.

Lemma startswith_split (p s : string) :
  startswith p s = true -> s = p ++ drop (String.length p) s.
Proof.
  revert s. induction p as [|a p IH]; intros s H.
  - destruct s; reflexivity.
  - destruct s as [|b s]; [discriminate|]. simpl in H.
    apply andb_prop in H as [Hab Hp]. apply Ascii.eqb_eq in Hab. subst b.
    simpl. f_equal. now apply IH.
Qed.

Lemma append_assoc (a b c : string) : (a ++ b) ++ c = a ++ b ++ c.
Proof. induction a as [|x a IH]; simpl; congruence. Qed.

(** Joining the fields of a split by the separator gives the text back: a
    scan that has read [cur] and still passes over [k] characters of [s]
    yields fields that join to [cur] and the rest of [s]. *)
Lemma split_scan_join (sep : string) :
  sep <> EmptyString ->
  forall (s : string) (k : nat) (cur : string),
    String.concat sep (split_scan sep s k cur) = cur ++ drop k s.
Proof.
  intros Hsep. induction s as [|c s IH]; intros k cur.
  - destruct k; simpl; now rewrite append_empty.
  - destruct k as [|k].
    + change (split_scan sep (String c s) 0 cur)
        with (if startswith sep (String c s)
              then cur :: split_scan sep s (String.length sep - 1) EmptyString
              else split_scan sep s 0 (cur ++ String c EmptyString)).
      destruct (startswith sep (String c s)) eqn:E.
      * rewrite concat_cons by apply split_scan_nonempty.
        rewrite IH. apply startswith_split in E.
        destruct sep as [|a sep']; [congruence|].
        simpl in E. injection E as -> E.
        simpl String.length.
        replace (S (String.length sep') - 1) with (String.length sep') by lia.
        change (drop 0 (String a s)) with (String a s).
        f_equal. simpl. f_equal. now symmetry.
      * rewrite IH. change (drop 0 (String c s)) with (String c s).
        replace (drop 0 s) with s by (destruct s; reflexivity).
        now rewrite append_char.
    + change (split_scan sep (String c s) (S k) cur)
        with (split_scan sep s k cur).
      rewrite IH. reflexivity.
Qed.

End ParseFacts.

Section ParseRows.

Lemma split_rows_ok (separator : string) (rows : list string) :
  separator <> EmptyString ->
  split_rows separator rows
  = Ok (map (fun r => PyStr.split_scan separator r 0 EmptyString) rows).
Proof.
  intros H. induction rows as [|r rows IH]; simpl; auto.
  rewrite IH. destruct separator; [congruence | reflexivity].
Qed.

Lemma split_join (separator r : string) :
  separator <> EmptyString ->
  String.concat separator (PyStr.split_scan separator r 0 EmptyString) = r.
Proof.
  intros H. rewrite (split_scan_join separator H). simpl.
  destruct r; reflexivity.
Qed.

End ParseRows.

(** X22.  [text_to_df] hands on what [read_csv] returned with every column
    name stripped: index and cells are untouched, no name begins or ends
    with whitespace, and stripping once more changes nothing. *)
Theorem text_to_df_strips_names :
  forall (W : World) (text separator : string) (st : state) (df : DataFrame),
    read_csv W text separator = Ok df ->
    exists df',
      text_to_df W text separator st = (Ok (Some df'), st) /\
      index df' = index df /\
      map snd (columns df') = map snd (columns df) /\
      column_names df' = map PyStr.strip (column_names df) /\
      Forall (fun name => clean_start name = true /\ clean_end name = true)
        (column_names df') /\
      rename_strip df' = df'.
Proof.
  intros W text separator st df H. exists (rename_strip df).
  unfold text_to_df. rewrite H. unfold rename_strip, column_names; simpl.
  repeat split.
  - rewrite map_map. reflexivity.
  - rewrite !map_map. reflexivity.
  - rewrite map_map. apply Forall_forall. intros name Hin.
    apply in_map_iff in Hin as (kv & <- & _). simpl. apply strip_clean.
  - f_equal. rewrite map_map. apply map_ext. intros [k v]. simpl.
    now rewrite strip_strip.
Qed.

Lemma text_to_df_strips_names_witness :
  read_csv sample_world data_text TAB = Ok one_row_frame /\
  exists df',
    text_to_df sample_world data_text TAB fresh = (Ok (Some df'), fresh) /\
    column_names df' = ["series_id"; "year"; "period"; "value"; "footnote_codes"].
Proof.
  split; [reflexivity|].
  destruct (text_to_df_strips_names sample_world data_text TAB fresh one_row_frame
              eq_refl) as (df' & E & _ & _ & Hn & _).
  exists df'. split; [exact E|]. rewrite Hn. reflexivity.
Defined.

(** X23.  The rows a dimension load reads lose nothing of the text: with a
    separator that is not empty the data rows are always obtained, and the
    header line followed by the rows, each joined by the separator, all
    joined by newlines, is the fetched text stripped. *)
Theorem data_rows_lossless :
  forall (text separator : string),
    separator <> EmptyString ->
    exists (header : string) (rows : list (list string)),
      data_rows text separator = Ok rows /\
      String.concat NL (header :: map (String.concat separator) rows)
      = PyStr.strip text.
Proof.
  intros text separator Hsep. unfold data_rows.
  assert (Hnl : NL <> EmptyString) by discriminate.
  pose proof (split_join NL (PyStr.strip text) Hnl) as J.
  destruct (PyStr.split_scan NL (PyStr.strip text) 0 EmptyString)
    as [|header rest] eqn:E.
  - now apply split_scan_nonempty in E.
  - exists header,
      (map (fun r => PyStr.split_scan separator r 0 EmptyString) rest).
    split; [now apply split_rows_ok|].
    rewrite map_map.
    replace (map (fun r => String.concat separator
                             (PyStr.split_scan separator r 0 EmptyString)) rest)
      with rest; [exact J|].
    symmetry. rewrite <- (map_id rest) at 2. apply map_ext.
    intros r. now apply split_join.
Qed.

Lemma data_rows_lossless_witness :
  TAB <> EmptyString /\
  exists (header : string) (rows : list (list string)),
    data_rows areas_text TAB = Ok rows /\
    String.concat NL (header :: map (String.concat TAB) rows)
    = PyStr.strip areas_text.
Proof.
  assert (H : TAB <> EmptyString) by discriminate.
  split; [exact H|].
  exact (data_rows_lossless areas_text TAB H).
Defined.

(** X24.  A dimension load never updates a stored row: in a state the
    loaders reach from the created schema, a row of a table is at its place
    after the load, and it is the only row of the table with its key, so a
    row of the file with that key has been ignored. *)
Theorem dimension_load_never_updates :
  forall (W : World) (st : state) (url table_name separator : string)
         (t : table) (i : nat) (r : row),
    reachable W st ->
    nth_error (rows_of (db st) t) i = Some r ->
    let st' := snd (insert_non_data_table W url table_name separator st) in
    nth_error (rows_of (db st') t) i = Some r /\
    forall (j : nat) (r' : row),
      nth_error (rows_of (db st') t) j = Some r' ->
      col 0 r' = col 0 r ->
      j = i /\ r' = r.
Proof.
  intros W st url table_name separator t i r Hr Hi st'.
  assert (Hkeep : nth_error (rows_of (db st') t) i = Some r).
  { destruct (insert_non_data_table_extends W url table_name separator st t)
      as [more Hm].
    subst st'. rewrite Hm. rewrite nth_error_app1; auto.
    apply nth_error_Some. congruence. }
  split; [exact Hkeep|].
  intros j r' Hj Hk.
  assert (Hr' : reachable W st')
    by (eapply reach_step; [exact Hr | apply step_dimension]).
  destruct (primary_keys_unique W st' Hr') as [Huniq _].
  assert (j = i) by (apply (Huniq t j i r' r); assumption).
  subst j. split; [reflexivity | congruence].
Qed.

Lemma dimension_load_never_updates_witness :
  reachable renaming_world area_loaded /\
  nth_error (rows_of (db area_loaded) Areas) 0
  = Some [VText "0000"; VText "U.S. city average"; VText "0"; VText "T"; VText "1"] /\
  nth_error
    (rows_of
       (db (snd (insert_non_data_table renaming_world "renamed" "areas" TAB
                   area_loaded))) Areas) 0
  = Some [VText "0000"; VText "U.S. city average"; VText "0"; VText "T"; VText "1"].
Proof.
  assert (Hr : reachable renaming_world area_loaded).
  { unfold area_loaded. eapply reach_step; [apply (reach_created _ [])|].
    apply step_dimension. }
  assert (H0 : nth_error (rows_of (db area_loaded) Areas) 0
               = Some [VText "0000"; VText "U.S. city average"; VText "0";
                       VText "T"; VText "1"])
    by (vm_compute; reflexivity).
  split; [exact Hr|]. split; [exact H0|].
  exact (proj1 (dimension_load_never_updates renaming_world area_loaded
                  "renamed" "areas" TAB Areas 0 _ Hr H0)).
Defined.

(** ** A fact file that repeats a stored observation *)

Section ClashFacts.

Variable W : World.

(** A batch with integer ids that are all new, one of whose rows clashes
    with a stored row on a UNIQUE constraint, fails with IntegrityError. *)
Lemma run_rows_clash (def : table_def) (nv : nat) (place : row -> row)
    (params : list row) :
  forall (rows : list row) (c : nat),
    Forall (fun p => List.length p = nv) params ->
    Forall (fun r => int_key r = true)
      (map (fun p => coerce_row W def (place p)) params) ->
    NoDup (map (col 0) (rows ++ map (fun p => coerce_row W def (place p)) params)) ->
    (exists p, In p params /\
               unique_violated def rows (coerce_row W def (place p)) = true) ->
    exists rows',
      run_rows W def None nv place params rows c = (Raise IntegrityError, rows').
Proof.
  induction params as [|p0 rest IH]; intros rows c Hlen Hint Hnd (p & Hin & Hv);
    [destruct Hin|].
  inversion Hlen as [|? ? Hp0 Hrest]; subst.
  simpl in Hint. inversion Hint as [|? ? Hk Hints]; subst.
  simpl. rewrite Nat.eqb_refl.
  rewrite int_key_insert by assumption.
  simpl in Hnd. rewrite (key_free rows _ _ Hnd).
  destruct (unique_violated def rows (coerce_row W def (place p0))) eqn:U.
  - simpl. eauto.
  - destruct Hin as [->|Hin]; [congruence|].
    apply IH; auto.
    + now rewrite <- app_assoc.
    + exists p. split; [exact Hin|]. now apply unique_violated_app.
Qed.

End ClashFacts.

(** X25.  A fact file is rejected as a whole when it repeats a stored
    observation under a new id: if the rows offered to the fact table have
    integer ids, none of them stored yet, and one row agrees with a stored
    row on a (series_id, year, period) without NULL, then
    [insert_data_table] prints an IntegrityError and the database is as it
    was, also for the rows of the file that are new. *)
Theorem repeated_observation_rejects_file :
  forall (W : World) (url : string) (data_cols : list string) (separator : string)
         (st : state) (text : string) (frame : DataFrame),
    urlopen W url = Ok text ->
    text <> EmptyString ->
    fact_frame W text separator data_cols = Ok frame ->
    known_columns create_data_query (column_names frame) = true ->
    Forall (fun r => int_key r = true) (offered W frame) ->
    NoDup (map (col 0) (data (db st) ++ offered W frame)) ->
    (exists r stored,
        In r (offered W frame) /\ In stored (data (db st)) /\
        key_not_null r = true /\ observation_key r = observation_key stored) ->
    insert_data_table W url "data" data_cols separator st
    = (Ok tt,
       mkState (db st) (out st ++ [Fetch url; Printed (MError IntegrityError)])).
Proof.
  intros W url data_cols separator st text frame Hu Ht Hf Hknown Hint Hnd
    (r & stored & Hr & Hs & Hnn & Hkey).
  rewrite insert_data_table_eq. unfold fact_load. rewrite Hu.
  destruct text as [|ch text]; [contradiction|].
  rewrite Hf.
  assert (Hcsv : exists df0, read_csv W (String ch text) separator = Ok df0).
  { unfold fact_frame in Hf.
    destruct (read_csv W (String ch text) separator); [eauto | discriminate]. }
  destruct Hcsv as [df0 ->].
  unfold sql_load. cbn [schema_table String.eqb Ascii.eqb Bool.eqb def_of].
  unfold offered in Hr, Hint, Hnd.
  destruct (nrows frame) as [|m] eqn:Hm; [destruct Hr|].
  rewrite Hknown.
  apply in_map_iff in Hr as (i & Hi & Hseq).
  destruct (run_rows_clash W create_data_query (List.length (columns frame))
              (place_named create_data_query (column_names frame))
              (map (frame_row frame) (seq 0 (S m))) (data (db st)) 0)
    as [rows' R].
  - apply Forall_forall. intros p Hp.
    apply in_map_iff in Hp as (k & <- & _).
    unfold frame_row. now rewrite length_map.
  - now rewrite map_map.
  - now rewrite map_map.
  - exists (frame_row frame i). split; [now apply in_map|].
    rewrite Hi. unfold unique_violated. simpl existsb. rewrite orb_false_r.
    apply existsb_exists. exists stored. split; [exact Hs|].
    now apply same_key_clashes.
  - change (rows_of (db st) Data) with (data (db st)).
    rewrite R. reflexivity.
Qed.

Lemma repeated_observation_rejects_file_witness :
  fact_frame sample_world data_text TAB update_cols
  = Ok (arranged (decomposed (rename_strip one_row_frame) (range_ids 1)
                    ["CUSR0000SA0      "]) update_cols) /\
  insert_data_table sample_world "data" "data" update_cols TAB stored_under_7
  = (Ok tt,
     mkState (db stored_under_7) [Fetch "data"; Printed (MError IntegrityError)]).
Proof.
  assert (Hf : fact_frame sample_world data_text TAB update_cols
               = Ok (arranged (decomposed (rename_strip one_row_frame) (range_ids 1)
                                 ["CUSR0000SA0      "]) update_cols))
    by (vm_compute; reflexivity).
  split; [exact Hf|].
  apply (repeated_observation_rejects_file sample_world "data" update_cols TAB
           stored_under_7 data_text
           (arranged (decomposed (rename_strip one_row_frame) (range_ids 1)
                        ["CUSR0000SA0      "]) update_cols) eq_refl).
  - intros H. vm_compute in H. discriminate.
  - exact Hf.
  - vm_compute. reflexivity.
  - vm_compute. repeat constructor.
  - vm_compute. repeat constructor; simpl; intuition discriminate.
  - eexists. eexists. split; [vm_compute; left; reflexivity|].
    split; [left; reflexivity|]. split; reflexivity.
Defined.
